(** * beautiful-gradient-mcp: token verification, tool dispatch and profile saving

    A shallow embedding of [src/beautiful_gradient_mcp/main.py].

    - Python values that travel as JSON (tool arguments, JWT claims, request
      and response bodies) are the inductive [PyVal]; dictionaries are
      stdpp's [gmap string PyVal].
    - A Python call either returns or raises: [result].  Code that also
      touches the database runs in the state-and-exception monad [M], whose
      state records which connections were acquired and released.
    - The modules the file imports ([auth], [database], [gradients]) and the
      framework calls ([get_access_token], [json.loads], reading the widget
      file, the clock) are fields of the environment record [Env].
    - Logging calls are left out: they build strings from values that are
      already there and have no influence on what a function returns.
    - Strings are [string]; a character stands for the code point with its
      number, so the embedding covers text in the range 0-255. *)

From Stdlib Require Import ZArith QArith String Ascii List Bool Lia.
From stdpp Require Import base option gmap strings list pretty.

Set Warnings "-register-all".
Open Scope string_scope.
Open Scope list_scope.

(** ** Python values *)

Inductive PyVal : Type :=
  | PNone
  | PBool (b : bool)
  | PInt (z : Z)
  | PFloat (q : Q)
  | PStr (s : string)
  | PList (l : list PyVal)
  | PDict (d : gmap string PyVal).

Abbreviation dict := (gmap string PyVal).

(** [bool(v)]: what [if v] and [not v] test. *)
Definition truthy (v : PyVal) : bool :=
  match v with
  | PNone => false
  | PBool b => b
  | PInt z => negb (z =? 0)%Z
  | PFloat q => negb (Qeq_bool q 0)
  | PStr s => match s with EmptyString => false | String _ _ => true end
  | PList l => match l with [] => false | _ :: _ => true end
  | PDict d => negb (size d =? 0)%nat
  end.

(** [type(v).__name__], as it appears in Python's error messages. *)
Definition py_type_name (v : PyVal) : string :=
  match v with
  | PNone => "NoneType"
  | PBool _ => "bool"
  | PInt _ => "int"
  | PFloat _ => "float"
  | PStr _ => "str"
  | PList _ => "list"
  | PDict _ => "dict"
  end.

(** ** Exceptions and results *)

Inductive exn_kind : Type :=
  | TypeError
  | AttributeError
  | IndexError
  | ValidationError
  | ExternalError.

(** An exception: its class and [str(e)]. *)
Record exn : Type := Exn { exn_class : exn_kind; exn_str : string }.

Inductive result (A : Type) : Type :=
  | Ok (a : A)
  | Raise (e : exn).
Arguments Ok {A} a.
Arguments Raise {A} e.

#[global] Instance result_ret : MRet result := λ A a, Ok a.
#[global] Instance result_bind : MBind result := λ A B f r,
  match r with
  | Ok a => f a
  | Raise e => Raise e
  end.

(** [try: body  except Exception as e: handler(e)] for code without state. *)
Definition try_except_r {A} (body : result A) (handler : exn → result A) : result A :=
  match body with
  | Ok a => Ok a
  | Raise e => handler e
  end.

(** ** Operations of the Python data model used by the source *)

Definition no_attribute (v : PyVal) (attr : string) : exn :=
  Exn AttributeError ("'" +:+ py_type_name v +:+ "' object has no attribute '" +:+ attr +:+ "'").

(** [o.get(k, default)]: only a dictionary has the method. *)
Definition py_get (o : PyVal) (k : string) (default : PyVal) : result PyVal :=
  match o with
  | PDict d => Ok (match d !! k with Some v => v | None => default end)
  | _ => Raise (no_attribute o "get")
  end.

Fixpoint is_infix (k s : string) : bool :=
  String.prefix k s || match s with EmptyString => false | String _ s' => is_infix k s' end.

(** [k in o] for a string [k]: key of a dictionary, element of a list,
    substring of a string; the other values are not containers. *)
Definition py_in (k : string) (o : PyVal) : result bool :=
  match o with
  | PDict d => Ok (bool_decide (is_Some (d !! k)))
  | PList l => Ok (existsb (λ v, match v with PStr s => String.eqb s k | _ => false end) l)
  | PStr s => Ok (is_infix k s)
  | _ => Raise (Exn TypeError ("argument of type '" +:+ py_type_name o +:+ "' is not iterable"))
  end.

(** [str.isspace] on the code points 0-255. *)
Definition is_py_space (c : ascii) : bool :=
  let n := nat_of_ascii c in
  ((9 <=? n) && (n <=? 13) || (28 <=? n) && (n <=? 32) || (n =? 133) || (n =? 160))%nat.

(** [s.split()]: the maximal runs of characters that are not whitespace.
    [cur] is the run being read, last character first. *)
Fixpoint split_from (cur : list ascii) (s : string) : list string :=
  match s with
  | EmptyString =>
      match cur with [] => [] | _ :: _ => [string_of_list_ascii (rev cur)] end
  | String c s' =>
      if is_py_space c then
        match cur with
        | [] => split_from [] s'
        | _ :: _ => string_of_list_ascii (rev cur) :: split_from [] s'
        end
      else split_from (c :: cur) s'
  end.

Definition py_split (s : string) : list string := split_from [] s.

(** [v.split()]: only a string has the method. *)
Definition py_str_split (v : PyVal) : result (list string) :=
  match v with
  | PStr s => Ok (py_split s)
  | _ => Raise (no_attribute v "split")
  end.

(** The value of an [int] or [bool] used as a number. *)
Definition as_int (v : PyVal) : option Z :=
  match v with
  | PInt z => Some z
  | PBool b => Some (if b then 1 else 0)%Z
  | _ => None
  end.

Definition not_supported (op : string) (l r : string) : exn :=
  Exn TypeError ("'" +:+ op +:+ "' not supported between instances of '" +:+ l +:+ "' and '" +:+ r +:+ "'").

(** [z <= v] for an integer [z]. *)
Definition py_int_le (z : Z) (v : PyVal) : result bool :=
  match v with
  | PInt i => Ok (z <=? i)%Z
  | PBool b => Ok (z <=? (if b then 1 else 0))%Z
  | PFloat q => Ok (Qle_bool (inject_Z z) q)
  | _ => Raise (not_supported "<=" "int" (py_type_name v))
  end.

(** [v < z] for an integer [z]. *)
Definition py_lt_int (v : PyVal) (z : Z) : result bool :=
  match v with
  | PInt i => Ok (i <? z)%Z
  | PBool b => Ok ((if b then 1 else 0) <? z)%Z
  | PFloat q => Ok (Qle_bool q (inject_Z z) && negb (Qeq_bool q (inject_Z z)))
  | _ => Raise (not_supported "<" (py_type_name v) "int")
  end.

(** [l[i]]: integers (and booleans) index, a negative one from the end. *)
Definition py_index {A} (l : list A) (i : PyVal) : result A :=
  match as_int i with
  | Some z =>
      let z' := (if z <? 0 then z + Z.of_nat (length l) else z)%Z in
      if (z' <? 0)%Z then Raise (Exn IndexError "list index out of range")
      else match l !! Z.to_nat z' with
           | Some x => Ok x
           | None => Raise (Exn IndexError "list index out of range")
           end
  | None =>
      Raise (Exn TypeError ("list indices must be integers or slices, not " +:+ py_type_name i))
  end.

(** ** The access token *)

(** [StytchAccessToken(AccessToken)]: the fields of the pydantic model. *)
Record StytchAccessToken : Type := {
  token : string;
  client_id : string;
  scopes : list string;
  subject : string;
  claims : dict;
}.

(** The constructor call [StytchAccessToken(token=..., client_id=..., ...)].
    The model validates its fields against their annotations: [client_id]
    and [subject] are [str], [claims] is [Dict[str, Any]]; a value of
    another type raises a validation error.  [token] and [scopes] are
    already a string and a list of strings where the call is made. *)
Definition mk_StytchAccessToken (tok : string) (cid : PyVal) (sub : PyVal)
    (scs : list string) (cls : PyVal) : result StytchAccessToken :=
  match cid, sub, cls with
  | PStr c, PStr s, PDict d =>
      Ok {| token := tok; client_id := c; scopes := scs; subject := s; claims := d |}
  | PStr _, PStr _, _ => Raise (Exn ValidationError "claims: Input should be a valid dictionary")
  | PStr _, _, _ => Raise (Exn ValidationError "subject: Input should be a valid string")
  | _, _, _ => Raise (Exn ValidationError "client_id: Input should be a valid string")
  end.

(** ** The database, the palette and the environment *)

(** A row of the profile table, as far as the file reads it: three
    nullable text columns. *)
Record Profile : Type := {
  twitter_handle : option string;
  display_name : option string;
  avatar_url : option string;
}.

(** An entry of [GRADIENTS], of which the file reads the name. *)
Record Gradient : Type := { gradient_name : string }.

(** What the file imports or is handed by its framework.  A field of type
    [result _] is a call that may raise. *)
Record Env : Type := {
  GRADIENTS : list Gradient;
  MCP_SERVER_URL : string;
  (** [auth.verify_jwt_token(token)] *)
  verify_jwt_token : string → result PyVal;
  (** [get_access_token()]: the token of the current request, if any *)
  get_access_token : result (option StytchAccessToken);
  (** [database.get_db()]: whether a connection can be had *)
  db_connect : result unit;
  (** [database.get_profile_by_user_id(db, user_id)] *)
  db_get_profile_by_user_id : string → result (option Profile);
  (** [database.get_or_create_profile(db, twitter_profile)] *)
  db_get_or_create_profile : PyVal → result (option Profile);
  (** [db.close()]: whether closing itself raises *)
  db_close_outcome : result unit;
  (** [open(widget_path).read()] *)
  read_widget_html : result string;
  (** [datetime.utcnow().isoformat()] *)
  utcnow_isoformat : string;
  (** [json.loads(body)] *)
  json_loads : string → result PyVal;
  (** [auth.verify_stytch_session_token(session_token)] *)
  verify_stytch_session_token : PyVal → result PyVal;
  (** [auth.extract_twitter_profile(user_data)] *)
  extract_twitter_profile : PyVal → result PyVal;
}.

(** ** State: the connections of the database *)

Inductive db_event : Type :=
  | Acquire (c : nat)
  | Release (c : nat).

Record World : Type := {
  next_conn : nat;
  db_log : list db_event;
}.

Definition M (A : Type) : Type := World → result A * World.

#[global] Instance M_ret : MRet M := λ A a w, (Ok a, w).
#[global] Instance M_bind : MBind M := λ A B f m w,
  match m w with
  | (Ok a, w') => f a w'
  | (Raise e, w') => (Raise e, w')
  end.

(** A call that does not touch the database. *)
Definition liftR {A} (r : result A) : M A := λ w, (r, w).

(** [try: body  except Exception as e: handler(e)] *)
Definition try_except {A} (body : M A) (handler : exn → M A) : M A := λ w,
  match body w with
  | (Ok a, w') => (Ok a, w')
  | (Raise e, w') => handler e w'
  end.

(** [try: body  finally: fin].  [fin] runs however [body] ends; the outcome
    is that of [body] unless [fin] itself raises. *)
Definition try_finally {A} (body : M A) (fin : M unit) : M A := λ w,
  match body w with
  | (r, w') =>
      match fin w' with
      | (Ok _, w'') => (r, w'')
      | (Raise e, w'') => (Raise e, w'')
      end
  end.

Section Server.
Variable E : Env.

(** [get_db()]: a fresh connection, when one can be had. *)
Definition get_db : M nat := λ w,
  match db_connect E with
  | Ok _ =>
      (Ok (next_conn w),
       {| next_conn := S (next_conn w); db_log := db_log w ++ [Acquire (next_conn w)] |})
  | Raise e => (Raise e, w)
  end.

(** [db.close()]: the call is recorded whether or not it raises. *)
Definition db_close (db : nat) : M unit := λ w,
  (db_close_outcome E, {| next_conn := next_conn w; db_log := db_log w ++ [Release db] |}).

Definition get_profile_by_user_id (db : nat) (user_id : string) : M (option Profile) :=
  liftR (db_get_profile_by_user_id E user_id).

Definition get_or_create_profile (db : nat) (twitter_profile : PyVal) : M (option Profile) :=
  liftR (db_get_or_create_profile E twitter_profile).

(** ** [StytchVerifier.verify_token] *)

Definition verify_token (tok : string) : result (option StytchAccessToken) :=
  try_except_r
    (jwt_claims ← verify_jwt_token E tok;
     subject ← py_get jwt_claims "sub" PNone;
     fallback ← py_get jwt_claims "client_id" (PStr EmptyString);
     client_id ← py_get jwt_claims "azp" fallback;
     if negb (truthy subject) then mret None
     else
       scopes ← (has_scope ← py_in "scope" jwt_claims;
                 if has_scope : bool then
                   scope ← py_get jwt_claims "scope" (PStr EmptyString);
                   py_str_split scope
                 else mret []);
       access_token ← mk_StytchAccessToken tok client_id subject scopes jwt_claims;
       mret (Some access_token))
    (λ e, mret None).

(** ** Tool results *)

(** [types.TextContent(type="text", text=...)] *)
Record TextContent : Type := { text : string }.

(** [types.CallToolResult]; [isError] defaults to [False] and the other two
    optional fields to [None]. *)
Record CallToolResult : Type := {
  content : list TextContent;
  structuredContent : option dict;
  isError : bool;
  meta : option dict;
}.

(** A result that carries only a message and the error flag. *)
Definition error_result (message : string) : CallToolResult :=
  {| content := [ {| text := message |} ];
     structuredContent := None;
     isError := true;
     meta := None |}.

Definition nl : string := String (ascii_of_nat 10) EmptyString.

(** ** [handle_get_my_profile] *)

Definition handle_get_my_profile : M CallToolResult :=
  try_except
    (access_token ← liftR (get_access_token E);
     match access_token with
     | None =>
         mret (error_result "Authentication required. Please connect your account first.")
     | Some access_token =>
         let subject := subject access_token in
         let client_id := client_id access_token in
         let scopes := scopes access_token in
         let jwt_claims := claims access_token in
         let profile_data : dict :=
           <["user_id" := PStr subject]>
           (<["client_id" := PStr client_id]>
           (<["scopes" := PList (PStr <$> scopes)]>
           (<["jwt_claims" := PDict jwt_claims]> ∅))) in
         let text_response :=
           "Profile Information:" +:+ nl +:+
           "- User ID: " +:+ subject +:+ nl +:+
           "- Client ID: " +:+ client_id +:+ nl +:+
           "- Scopes: " +:+
             (match scopes with [] => "none" | _ :: _ => String.concat ", " scopes end) +:+ nl +:+
           "- JWT Claims: " +:+ pretty (size jwt_claims) +:+ " claims present" in
         mret {| content := [ {| text := text_response |} ];
                 structuredContent := Some profile_data;
                 isError := false;
                 meta := None |}
     end)
    (λ e, mret (error_result ("Failed to retrieve profile: " +:+ exn_str e))).

(** ** [handle_create_gradient_tweet] *)

Definition default_avatar : string :=
  "https://abs.twimg.com/sticky/default_profile_images/default_profile_400x400.png".

(** [x or d] for a nullable text column [x]. *)
Definition or_default (x : option string) (d : string) : string :=
  match x with
  | Some (String c s) => String c s
  | Some EmptyString | None => d
  end.

Definition twitter_data_of (handle name avatar : string) : dict :=
  <["handle" := PStr handle]>
  (<["name" := PStr name]>
  (<["avatar" := PStr avatar]> ∅)).

Definition default_twitter_data : dict :=
  twitter_data_of "twitter_user" "Twitter User" default_avatar.

Definition widget_unavailable : string := "<p>Widget HTML not available</p>".

(** [widget_html and widget_html != "<p>Widget HTML not available</p>"] *)
Definition widget_present (widget_html : string) : bool :=
  truthy (PStr widget_html) && negb (String.eqb widget_html widget_unavailable).

(** The block that reads the two arguments and picks the gradient. *)
Definition select_gradient (arguments : PyVal) : result (PyVal * PyVal * Gradient) :=
  tweet_content ← py_get arguments "tweetContent" (PStr EmptyString);
  gradient_index ← py_get arguments "gradientIndex" (PInt 0);
  (* if not 0 <= gradient_index < len(GRADIENTS): gradient_index = 0 *)
  in_range ← (above ← py_int_le 0 gradient_index;
              if above : bool
              then py_lt_int gradient_index (Z.of_nat (length (GRADIENTS E)))
              else mret false);
  let gradient_index := if negb in_range then PInt 0 else gradient_index in
  gradient ← py_index (GRADIENTS E) gradient_index;
  mret (tweet_content, gradient_index, gradient).

(** The block that looks the caller's profile up and builds [twitter_data]. *)
Definition lookup_twitter_data : M dict :=
  try_except
    (access_token ← liftR (get_access_token E);
     profile ←
       match access_token with
       | Some access_token =>
           if truthy (PStr (subject access_token)) then
             let user_id := subject access_token in
             db ← get_db;
             try_finally (get_profile_by_user_id db user_id) (db_close db)
           else mret None
       | None => mret None
       end;
     match profile with
     | Some profile =>
         mret (twitter_data_of
                 (or_default (twitter_handle profile) "twitter_user")
                 (or_default (display_name profile) "Twitter User")
                 (or_default (avatar_url profile) default_avatar))
     | None => mret default_twitter_data
     end)
    (λ e, mret default_twitter_data).

(** The block that reads the widget's HTML. *)
Definition read_widget : M string :=
  try_except (liftR (read_widget_html E)) (λ e, mret widget_unavailable).

Definition tweet_meta : dict :=
  <["openai/widgetAccessible" := PBool true]>
  (<["openai/resultCanProduceWidget" := PBool true]>
  (<["widget_type" := PStr "html"]>
  (<["inline_render" := PBool true]> ∅))).

(** The list [content_items] that the source fills before its [return] is
    not part of what it returns, and is left out. *)
Definition handle_create_gradient_tweet (arguments : PyVal) : M CallToolResult :=
  '(tweet_content, gradient_index, gradient) ← liftR (select_gradient arguments);
  twitter_data ← lookup_twitter_data;
  let structured_content : dict :=
    <["tweetContent" := tweet_content]>
    (<["gradientIndex" := gradient_index]>
    (<["gradientName" := PStr (gradient_name gradient)]>
    (<["profile" := PDict twitter_data]>
    (<["timestamp" := PStr (utcnow_isoformat E +:+ "Z")]>
    (<["widgetUrl" := PStr (MCP_SERVER_URL E +:+ "/widget/gradient-tweet")]> ∅))))) in
  let text_response :=
    "Created gradient tweet with " +:+ gradient_name gradient +:+ " gradient!" in
  widget_html ← read_widget;
  mret {| content :=
            {| text := text_response |} ::
            (if widget_present widget_html then [ {| text := widget_html |} ] else []);
          structuredContent :=
            Some (<["widget_html" :=
                      if widget_present widget_html then PStr widget_html else PNone]>
                    structured_content);
          isError := false;
          meta := Some tweet_meta |}.

(** ** [_call_tool] *)

Definition _call_tool (name : string) (arguments : PyVal) : M CallToolResult :=
  if String.eqb name "get-my-profile" then handle_get_my_profile
  else if String.eqb name "create-gradient-tweet" then handle_create_gradient_tweet arguments
  else mret (error_result ("Unknown tool: " +:+ name)).

(** ** [save_profile], the handler of [POST /api/save-profile] *)

(** [JSONResponse(content, status_code=200)] *)
Record JSONResponse : Type := {
  body : dict;
  status_code : Z;
}.

Definition failure (message : string) (status : Z) : JSONResponse :=
  {| body := <["success" := PBool false]> (<["message" := PStr message]> ∅);
     status_code := status |}.

Definition py_opt_str (x : option string) : PyVal :=
  match x with Some s => PStr s | None => PNone end.

Definition save_profile (request_body : string) : M JSONResponse :=
  try_except
    (data ← liftR (json_loads E request_body);
     session_token ← liftR (py_get data "session_token" PNone);
     if negb (truthy session_token) then mret (failure "session_token required" 400)
     else
       user_data ← liftR (verify_stytch_session_token E session_token);
       twitter_profile ← liftR (extract_twitter_profile E user_data);
       if negb (truthy twitter_profile) then mret (failure "No Twitter profile found" 400)
       else
         db ← get_db;
         try_finally
           (profile ← get_or_create_profile db twitter_profile;
            match profile with
            | Some profile =>
                mret {| body :=
                          <["success" := PBool true]>
                          (<["message" := PStr "Profile saved successfully"]>
                          (<["profile" :=
                               PDict (<["twitter_handle" := py_opt_str (twitter_handle profile)]>
                                     (<["display_name" := py_opt_str (display_name profile)]> ∅))]> ∅));
                        status_code := 200 |}
            | None => mret (failure "Failed to save profile" 500)
            end)
           (db_close db))
    (λ e, mret (failure ("Error: " +:+ exn_str e) 500)).

End Server.

(** ** Example inputs *)

Definition palette : list Gradient :=
  [ {| gradient_name := "Sunset" |};
    {| gradient_name := "Ocean" |};
    {| gradient_name := "Aurora" |} ].

Definition alice_claims : dict :=
  <["sub" := PStr "user-1"]>
  (<["azp" := PStr "client-a"]>
  (<["client_id" := PStr "client-b"]>
  (<["scope" := PStr "openid  profile"]> ∅))).

(** Claims without a subject. *)
Definition anonymous_claims : dict := <["scope" := PStr "openid"]> ∅.

(** Claims with a subject and nothing else. *)
Definition bare_claims : dict := <["sub" := PStr "user-2"]> ∅.

Definition alice_token : StytchAccessToken :=
  {| token := "eyJ.alice";
     client_id := "client-a";
     scopes := ["openid"; "profile"];
     subject := "user-1";
     claims := alice_claims |}.

(** A stored profile with a handle, an empty display name and no avatar. *)
Definition alice_profile : Profile :=
  {| twitter_handle := Some "alice";
     display_name := Some EmptyString;
     avatar_url := None |}.

Definition alice_twitter_profile : PyVal :=
  PDict (<["user_id" := PStr "user-1"]> (<["handle" := PStr "alice"]> ∅)).

Definition dq : string := String (ascii_of_nat 34) EmptyString.

(** The body [{"session_token": "sess-1"}]. *)
Definition session_body : string :=
  "{" +:+ dq +:+ "session_token" +:+ dq +:+ ": " +:+ dq +:+ "sess-1" +:+ dq +:+ "}".

(** [json.loads] on the bodies of the examples; any other text is taken
    not to be JSON. *)
Definition example_json_loads (b : string) : result PyVal :=
  if String.eqb b session_body then Ok (PDict (<["session_token" := PStr "sess-1"]> ∅))
  else if String.eqb b "{}" then Ok (PDict ∅)
  else if String.eqb b "[]" then Ok (PList [])
  else Raise (Exn ExternalError "Expecting value: line 1 column 1 (char 0)").

(** An environment in which the calls of the outside world have the given
    outcomes. *)
Definition example_env (jwt : result PyVal)
    (principal : result (option StytchAccessToken))
    (connect : result unit) (stored : result (option Profile))
    (close : result unit) (linked : PyVal) : Env :=
  {| GRADIENTS := palette;
     MCP_SERVER_URL := "http://localhost:8000";
     verify_jwt_token := λ _, jwt;
     get_access_token := principal;
     db_connect := connect;
     db_get_profile_by_user_id := λ _, stored;
     db_get_or_create_profile := λ _, stored;
     db_close_outcome := close;
     read_widget_html := Ok "<html></html>";
     utcnow_isoformat := "2025-01-01T00:00:00";
     json_loads := example_json_loads;
     verify_stytch_session_token := λ _, Ok (PDict ∅);
     extract_twitter_profile := λ _, Ok linked |}.

(** Alice is signed in and her profile is stored. *)
Definition alice_env : Env :=
  example_env (Ok (PDict alice_claims)) (Ok (Some alice_token))
              (Ok ()) (Ok (Some alice_profile)) (Ok ()) alice_twitter_profile.

(** Nobody is signed in. *)
Definition guest_env : Env :=
  example_env (Ok (PDict anonymous_claims)) (Ok None)
              (Ok ()) (Ok None) (Ok ()) PNone.

(** Alice is signed in and the database cannot be reached. *)
Definition outage_env : Env :=
  example_env (Ok (PDict bare_claims)) (Ok (Some alice_token))
              (Raise (Exn ExternalError "connection refused")) (Ok None) (Ok ())
              alice_twitter_profile.

Definition fresh_world : World := {| next_conn := 0; db_log := [] |}.

Definition tweet_arguments (gradient_index : PyVal) : dict :=
  <["tweetContent" := PStr "hello"]> (<["gradientIndex" := gradient_index]> ∅).

(** ** Vocabulary of the properties *)

(** A string without a whitespace character. *)
Definition no_space (t : string) : Prop :=
  Forall (λ c, is_py_space c = false) (list_ascii_of_string t).

(** What a call did to the connections: nothing, or it acquired one and
    released it again. *)
Definition released (w w' : World) : Prop :=
  ∃ tr, db_log w' = db_log w ++ tr ∧ (tr = [] ∨ ∃ c, tr = [Acquire c; Release c]).

(** The ways in which the lookup of the caller's profile comes back empty. *)
Inductive lookup_fails (E : Env) : Prop :=
  | no_principal :
      get_access_token E = Ok None → lookup_fails E
  | principal_unavailable e :
      get_access_token E = Raise e → lookup_fails E
  | no_stored_profile tok :
      get_access_token E = Ok (Some tok) →
      db_get_profile_by_user_id E (subject tok) = Ok None → lookup_fails E
  | store_unreachable tok e :
      get_access_token E = Ok (Some tok) →
      db_connect E = Raise e → lookup_fails E
  | store_query_raises tok e :
      get_access_token E = Ok (Some tok) →
      db_get_profile_by_user_id E (subject tok) = Raise e → lookup_fails E
  | store_close_raises tok e :
      get_access_token E = Ok (Some tok) →
      db_close_outcome E = Raise e → lookup_fails E.

(** What a result of [create-gradient-tweet] shows: the tweet, the index and
    the name of the gradient, and the identity. *)
Definition tweet_result (r : CallToolResult) (tc gi : PyVal) (g : Gradient) (td : dict) : Prop :=
  isError r = false
  ∧ head (content r) =
      Some {| text := "Created gradient tweet with " +:+ gradient_name g +:+ " gradient!" |}
  ∧ ∃ sc, structuredContent r = Some sc
      ∧ sc !! "tweetContent" = Some tc
      ∧ sc !! "gradientIndex" = Some gi
      ∧ sc !! "gradientName" = Some (PStr (gradient_name g))
      ∧ sc !! "profile" = Some (PDict td).

(** [v] is the column [x] when that holds text, and the default [d] when the
    column is null or empty. *)
Definition field_or (x : option string) (d v : string) : Prop :=
  (x = None ∨ x = Some EmptyString → v = d)
  ∧ (∀ s, x = Some s → s ≠ EmptyString → v = s).

(** The ways in which the store fails to save a profile. *)
Definition store_fails (E : Env) (twitter_profile : PyVal) : Prop :=
  (∃ e, db_connect E = Raise e)
  ∨ (∃ e, db_get_or_create_profile E twitter_profile = Raise e)
  ∨ db_get_or_create_profile E twitter_profile = Ok None
  ∨ (∃ e, db_close_outcome E = Raise e).

(** A response that reports failure with the given status. *)
Definition refused (r : JSONResponse) (status : Z) : Prop :=
  status_code r = status ∧ body r !! "success" = Some (PBool false).

(** * The rest of the module *)

(** ** The tools on offer: [TOOL_INPUT_SCHEMA] and [_list_tools] *)

Definition TOOL_INPUT_SCHEMA : dict :=
  <["type" := PStr "object"]>
  (<["properties" :=
       PDict
         (<["tweetContent" :=
              PDict (<["type" := PStr "string"]>
                    (<["description" := PStr "The content of the tweet to render"]> ∅))]>
         (<["gradientIndex" :=
              PDict (<["type" := PStr "integer"]>
                    (<["description" := PStr "Gradient preset index (0-24)"]>
                    (<["default" := PInt 0]>
                    (<["minimum" := PInt 0]>
                    (<["maximum" := PInt 24]> ∅)))))]> ∅))]>
  (<["required" := PList [PStr "tweetContent"]]>
  (<["additionalProperties" := PBool false]> ∅))).

(** [types.Tool(...)], with the arguments the file passes. *)
Record Tool : Type := {
  name : string;
  title : string;
  description : string;
  inputSchema : dict;
  securitySchemes : list dict;
  tool_meta : option dict;
  annotations : dict;
}.

Definition oauth2_scheme : dict :=
  <["type" := PStr "oauth2"]>
  (<["scopes" := PList [PStr "openid"; PStr "profile"]]> ∅).

Definition read_only_annotations : dict :=
  <["destructiveHint" := PBool false]>
  (<["openWorldHint" := PBool false]>
  (<["readOnlyHint" := PBool true]> ∅)).

Definition _list_tools : list Tool :=
  [ {| name := "get-my-profile";
       title := "Get My Profile";
       description := "Get the authenticated user's profile information from OAuth";
       inputSchema :=
         <["type" := PStr "object"]>
         (<["properties" := PDict ∅]>
         (<["additionalProperties" := PBool false]> ∅));
       securitySchemes := [oauth2_scheme];
       tool_meta := None;
       annotations := read_only_annotations |};
    {| name := "create-gradient-tweet";
       title := "Create Gradient Tweet";
       description :=
         "Generate a beautiful tweet mockup with a vibrant gradient background";
       inputSchema := TOOL_INPUT_SCHEMA;
       securitySchemes := [oauth2_scheme];
       tool_meta :=
         Some (<["openai/widgetAccessible" := PBool true]>
              (<["openai/resultCanProduceWidget" := PBool true]> ∅));
       annotations := read_only_annotations |} ].

(** [schema["properties"][property][keyword]], when all three are there. *)
Definition schema_keyword (schema : dict) (property keyword : string) : option PyVal :=
  match schema !! "properties" with
  | Some (PDict properties) =>
      match properties !! property with
      | Some (PDict p) => p !! keyword
      | _ => None
      end
  | _ => None
  end.

(** ** Configuration and start-up *)

(** [str.lower] on the code points 0-255: the letters A-Z and the capital
    letters of Latin-1 (0xC0-0xDE without the sign 0xD7) move up by 32. *)
Definition lower_char (c : ascii) : ascii :=
  let n := nat_of_ascii c in
  if ((65 <=? n) && (n <=? 90)
      || (192 <=? n) && (n <=? 222) && negb (n =? 215))%nat
  then ascii_of_nat (n + 32)
  else c.

Fixpoint py_lower (s : string) : string :=
  match s with
  | EmptyString => EmptyString
  | String c s' => String (lower_char c) (py_lower s')
  end.

Module Config.
Section Config.
(** [os.environ], after [load_dotenv()]. *)
Variable environ : gmap string string.

(** [os.getenv(key, default)] *)
Definition getenv (key default : string) : string :=
  match environ !! key with
  | Some v => v
  | None => default
  end.

Definition STYTCH_PROJECT_ID : string := getenv "STYTCH_PROJECT_ID" EmptyString.
Definition STYTCH_PUBLIC_TOKEN : string := getenv "STYTCH_PUBLIC_TOKEN" EmptyString.
Definition STYTCH_CLIENT_ID : string := getenv "STYTCH_CLIENT_ID" EmptyString.
Definition STYTCH_AUTHORIZATION_SERVER : string :=
  getenv "STYTCH_AUTHORIZATION_SERVER" "https://decorous-scale-5822.customers.stytch.dev".

Definition DEFAULT_PROTOCOL : string :=
  if String.eqb (py_lower (getenv "USE_HTTPS" "false")) "true" then "https" else "http".
Definition DEFAULT_PORT : string := getenv "SERVER_PORT" "8000".
Definition DEFAULT_HOST : string := getenv "SERVER_HOST" "localhost".

Definition MCP_SERVER_URL : string :=
  getenv "MCP_SERVER_URL" (DEFAULT_PROTOCOL +:+ "://" +:+ DEFAULT_HOST +:+ ":" +:+ DEFAULT_PORT).

(** How the server is started: the call of [uvicorn.run], on host 0.0.0.0. *)
Inductive launch : Type :=
  | Https (port : Z) (ssl_keyfile ssl_certfile : string)
  | Http (port : Z).

(** The block under [if __name__ == "__main__"].  [int_of_str] is Python's
    [int] on a string, with [None] for its [ValueError], which ends the
    process before anything is started; [path_exists] is [os.path.exists]. *)
Definition main (int_of_str : string → option Z) (path_exists : string → bool) :
    option launch :=
  let SSL_CERT_PATH := getenv "SSL_CERT_PATH" EmptyString in
  let SSL_KEY_PATH := getenv "SSL_KEY_PATH" EmptyString in
  SERVER_PORT ← int_of_str (getenv "SERVER_PORT" "8000");
  let USE_HTTPS := String.eqb (py_lower (getenv "USE_HTTPS" "false")) "true" in
  let use_ssl :=
    USE_HTTPS
    || (truthy (PStr SSL_CERT_PATH) && truthy (PStr SSL_KEY_PATH)
        && path_exists SSL_CERT_PATH && path_exists SSL_KEY_PATH) in
  if use_ssl && truthy (PStr SSL_CERT_PATH) && truthy (PStr SSL_KEY_PATH)
  then Some (Https SERVER_PORT SSL_KEY_PATH SSL_CERT_PATH)
  else Some (Http SERVER_PORT).

End Config.
End Config.

(** ** More example inputs *)


(** [E] with another palette. *)
Definition with_palette (gradients : list Gradient) (E : Env) : Env :=
  {| GRADIENTS := gradients;
     MCP_SERVER_URL := MCP_SERVER_URL E;
     verify_jwt_token := verify_jwt_token E;
     get_access_token := get_access_token E;
     db_connect := db_connect E;
     db_get_profile_by_user_id := db_get_profile_by_user_id E;
     db_get_or_create_profile := db_get_or_create_profile E;
     db_close_outcome := db_close_outcome E;
     read_widget_html := read_widget_html E;
     utcnow_isoformat := utcnow_isoformat E;
     json_loads := json_loads E;
     verify_stytch_session_token := verify_stytch_session_token E;
     extract_twitter_profile := extract_twitter_profile E |}.

(** The claims of a token whose scopes are a list. *)
Definition listed_scope_claims : dict :=
  <["sub" := PStr "user-3"]> (<["scope" := PList [PStr "openid"]]> ∅).

(** [int] on the port texts of the examples. *)
Definition example_int (s : string) : option Z :=
  if String.eqb s "8000" then Some 8000%Z
  else if String.eqb s "8443" then Some 8443%Z
  else None.

(** An environment that asks for HTTPS and names no certificate. *)
Definition https_without_certificate : gmap string string :=
  <["USE_HTTPS" := "True"]> (<["SERVER_PORT" := "8443"]> ∅).

(** An environment with a certificate on disk and no word about HTTPS. *)
Definition certificate_only : gmap string string :=
  <["SSL_CERT_PATH" := "/etc/ssl/cert.pem"]> (<["SSL_KEY_PATH" := "/etc/ssl/key.pem"]> ∅).

(** ** More vocabulary *)

(** The values of [gradientIndex] that the argument handling gets past: none
    at all, an integer, a boolean, or a number with a fraction that lies
    outside [0, n). *)
Definition index_accepted (n : nat) (v : option PyVal) : Prop :=
  match v with
  | None | Some (PInt _) | Some (PBool _) => True
  | Some (PFloat q) => ¬ (0 <= q ∧ q < inject_Z (Z.of_nat n))%Q
  | Some _ => False
  end.

(** The widget's HTML as the tool passes it on: the text of the file when
    that can be read, is not empty and is not the fallback text. *)
Definition widget_shown (E : Env) (html : string) : Prop :=
  read_widget_html E = Ok html ∧ html ≠ EmptyString ∧ html ≠ widget_unavailable.

(** A palette of 25 gradients. *)
Definition full_palette : list Gradient :=
  replicate 24 {| gradient_name := "Sunset" |} ++ [ {| gradient_name := "Midnight" |} ].

(** * Properties *)

(** Unfolds the monadic code down to the outcomes of the outside calls. *)
Ltac run_M :=
  unfold mbind, mret, M_bind, M_ret, result_bind, result_ret, liftR,
    try_except, try_finally, get_db, db_close,
    get_profile_by_user_id, get_or_create_profile in *.

(** ** Worked examples *)

Example split_scopes :
  py_split "  openid   profile email " = ["openid"; "profile"; "email"].
Proof. reflexivity. Qed.

Example verify_alice :
  verify_token alice_env "eyJ.alice" = Ok (Some alice_token).
Proof. reflexivity. Qed.

Example verify_without_subject :
  verify_token guest_env "eyJ.guest" = Ok None.
Proof. reflexivity. Qed.

Example select_below_range :
  select_gradient alice_env (PDict (tweet_arguments (PInt (-1))))
  = Ok (PStr "hello", PInt 0, {| gradient_name := "Sunset" |}).
Proof. reflexivity. Qed.

Example select_in_range :
  select_gradient alice_env (PDict (tweet_arguments (PInt 2)))
  = Ok (PStr "hello", PInt 2, {| gradient_name := "Aurora" |}).
Proof. reflexivity. Qed.

Example select_fraction_in_range :
  select_gradient alice_env (PDict (tweet_arguments (PFloat (3 # 2))))
  = Raise (Exn TypeError "list indices must be integers or slices, not float").
Proof. reflexivity. Qed.

Example select_without_arguments :
  select_gradient alice_env PNone
  = Raise (Exn AttributeError "'NoneType' object has no attribute 'get'").
Proof. reflexivity. Qed.

Example alice_identity :
  fst (lookup_twitter_data alice_env fresh_world)
  = Ok (twitter_data_of "alice" "Twitter User" default_avatar).
Proof. reflexivity. Qed.

Example outage_log :
  db_log (snd (lookup_twitter_data outage_env fresh_world)) = [].
Proof. reflexivity. Qed.

Example alice_log :
  db_log (snd (lookup_twitter_data alice_env fresh_world)) = [Acquire 0; Release 0].
Proof. reflexivity. Qed.

(** ** Token verification *)

Section VerifyToken.
Variable E : Env.

Lemma verify_token_returns tok : ∃ r, verify_token E tok = Ok r.
Proof.
  unfold verify_token, try_except_r.
  destruct (_ ≫= _); eauto.
Qed.

Lemma truthy_str_nonempty s : truthy (PStr s) = true → s ≠ EmptyString.
Proof. by destruct s. Qed.

Lemma verify_token_some tok p :
  verify_token E tok = Ok (Some p) →
  ∃ d, verify_jwt_token E tok = Ok (PDict d)
    ∧ token p = tok
    ∧ claims p = d
    ∧ d !! "sub" = Some (PStr (subject p))
    ∧ subject p ≠ EmptyString
    ∧ PStr (client_id p) =
        match d !! "azp" with
        | Some v => v
        | None => match d !! "client_id" with Some v => v | None => PStr EmptyString end
        end
    ∧ match d !! "scope" with
      | Some v => ∃ s, v = PStr s ∧ scopes p = py_split s
      | None => scopes p = []
      end.
Proof.
  unfold verify_token, try_except_r.
  destruct (verify_jwt_token E tok) as [v|e]; [|discriminate].
  destruct v as [| | | | |l|d]; try discriminate.
  simpl. intros H. exists d. split; [done|].
  destruct (d !! "sub") as [sub|] eqn:Hsub; simpl in H; [|discriminate].
  destruct (truthy sub) eqn:Ht; simpl in H; [|discriminate].
  set (cid := match d !! "azp" with Some v => v | None => _ end) in *.
  clearbody cid.
  destruct (d !! "scope") as [sv|] eqn:Hsc.
  - rewrite bool_decide_eq_true_2 in H by eauto.
    destruct sv; try discriminate. simpl in H.
    destruct cid; try discriminate; destruct sub; try discriminate.
    simpl in H. injection H as <-. simpl.
    repeat split; eauto using truthy_str_nonempty.
  - rewrite bool_decide_eq_false_2 in H by (intros [? ?]; discriminate).
    simpl in H.
    destruct cid; try discriminate; destruct sub; try discriminate.
    simpl in H. injection H as <-. simpl.
    repeat split; eauto using truthy_str_nonempty.
Qed.

(** Claims that verify: the conditions under which a principal is built. *)
Lemma verify_token_accepts tok d sub cid :
  verify_jwt_token E tok = Ok (PDict d) →
  d !! "sub" = Some (PStr sub) →
  sub ≠ EmptyString →
  match d !! "azp" with
  | Some v => v
  | None => match d !! "client_id" with Some v => v | None => PStr EmptyString end
  end = PStr cid →
  (d !! "scope" = None ∨ ∃ s, d !! "scope" = Some (PStr s)) →
  ∃ p, verify_token E tok = Ok (Some p) ∧ subject p = sub ∧ client_id p = cid.
Proof.
  intros Hjwt Hsub Hne Hcid Hscope.
  unfold verify_token, try_except_r. rewrite Hjwt. simpl.
  rewrite Hsub, Hcid. simpl.
  destruct sub as [|c sub]; [done|]. simpl.
  destruct Hscope as [Hs|[s Hs]]; rewrite Hs.
  - rewrite bool_decide_eq_false_2 by (intros [? ?]; discriminate).
    simpl. eauto.
  - rewrite bool_decide_eq_true_2 by eauto.
    simpl. eauto.
Qed.

Lemma verify_token_no_sub tok d :
  verify_jwt_token E tok = Ok (PDict d) → d !! "sub" = None → verify_token E tok = Ok None.
Proof.
  intros Hjwt Hsub. unfold verify_token, try_except_r. rewrite Hjwt. simpl.
  by rewrite Hsub.
Qed.
End VerifyToken.

(** ** Splitting on whitespace *)

Section Split.



Lemma split_from_sep cur a c b :
  is_py_space c = true →
  split_from cur (a +:+ String c b) = split_from cur a ++ split_from [] b.
Proof.
  intros Hc. revert cur. induction a as [|x a IH]; intros cur; simpl.
  - rewrite Hc. by destruct cur.
  - destruct (is_py_space x); [|by apply IH].
    destruct cur; simpl; by rewrite IH.
Qed.

Lemma py_split_single s :
  s ≠ EmptyString → no_space s → py_split s = [s].
Proof.
  intros Hne Hns. unfold py_split.
  assert (Hgen : ∀ cur, cur ≠ [] ∨ s ≠ EmptyString → no_space s →
            split_from cur s = [string_of_list_ascii (rev cur ++ list_ascii_of_string s)]).
  { clear Hne Hns. induction s as [|c s IH]; intros cur Hor Hns; simpl.
    - destruct Hor as [Hcur|?]; [|done]. destruct cur; [done|].
      by rewrite app_nil_r.
    - inversion Hns as [|? ? Hc Hs]; subst. rewrite Hc.
      rewrite IH; [|by left|done]. simpl. by rewrite <- app_assoc. }
  rewrite Hgen by auto. simpl. by rewrite string_of_list_ascii_of_string.
Qed.

End Split.

(** C1.  For every token, [verify_token] returns: either the failure value
    [None], or a principal whose subject is not the empty string.  It never
    raises, and claims without ['sub'] give [None]. *)
Theorem verify_token_subject_nonempty (E : Env) (tok : string) :
  (verify_token E tok = Ok None
   ∨ ∃ p, verify_token E tok = Ok (Some p) ∧ subject p ≠ EmptyString)
  ∧ (∀ d, verify_jwt_token E tok = Ok (PDict d) → d !! "sub" = None →
       verify_token E tok = Ok None).
Proof.
  split.
  - destruct (verify_token_returns E tok) as [[p|] Hr]; [right|by left].
    exists p. split; [done|].
    by destruct (verify_token_some E tok p Hr) as (d & _ & _ & _ & _ & Hne & _).
  - apply verify_token_no_sub.
Qed.

Lemma verify_token_subject_nonempty_witness :
  verify_jwt_token guest_env "eyJ.guest" = Ok (PDict anonymous_claims)
  ∧ anonymous_claims !! "sub" = None
  ∧ verify_token guest_env "eyJ.guest" = Ok None.
Proof.
  split; [reflexivity|]. split; [reflexivity|].
  apply (proj2 (verify_token_subject_nonempty guest_env "eyJ.guest") anonymous_claims);
    reflexivity.
Defined.





(** ** The tweet tool *)

Section TweetTool.
Variable E : Env.

Lemma released_refl w : released w w.
Proof. exists []. split; [by rewrite app_nil_r | by left]. Qed.

Lemma or_default_nonempty x d : d ≠ EmptyString → or_default x d ≠ EmptyString.
Proof. by destruct x as [[|c s]|]. Qed.

Lemma lookup_twitter_data_returns w :
  ∃ td w', lookup_twitter_data E w = (Ok td, w') ∧ released w w'
    ∧ ∃ h n a, td = twitter_data_of h n a
        ∧ h ≠ EmptyString ∧ n ≠ EmptyString ∧ a ≠ EmptyString.
Proof.
  assert (Hdef : ∃ h n a, default_twitter_data = twitter_data_of h n a
            ∧ h ≠ EmptyString ∧ n ≠ EmptyString ∧ a ≠ EmptyString).
  { exists "twitter_user", "Twitter User", default_avatar. by repeat split. }
  unfold lookup_twitter_data. run_M.
  destruct (get_access_token E) as [[tok|]|e].
  - destruct (truthy (PStr (subject tok))).
    + destruct (db_connect E) as [[]|e].
      * destruct (db_get_profile_by_user_id E (subject tok)) as [[p|]|e];
          destruct (db_close_outcome E) as [[]|e'];
          (eexists _, _; split; [reflexivity|]; split;
           [eexists; split; [simpl; by rewrite <- app_assoc | right; eauto] | ]);
          try exact Hdef.
        eexists _, _, _. split; [reflexivity|].
        repeat split; by apply or_default_nonempty.
      * eexists _, _. split; [reflexivity|]. split; [apply released_refl | exact Hdef].
    + eexists _, _. split; [reflexivity|]. split; [apply released_refl | exact Hdef].
  - eexists _, _. split; [reflexivity|]. split; [apply released_refl | exact Hdef].
  - eexists _, _. split; [reflexivity|]. split; [apply released_refl | exact Hdef].
Qed.

Lemma lookup_fails_default w :
  lookup_fails E → ∃ w', lookup_twitter_data E w = (Ok default_twitter_data, w').
Proof.
  intros Hf. unfold lookup_twitter_data. run_M.
  destruct Hf as [H|e H|tok H Hq|tok e H Hc|tok e H Hq|tok e H Hc]; rewrite H.
  - eauto.
  - eauto.
  - destruct (truthy (PStr (subject tok))); [|eauto].
    destruct (db_connect E) as [[]|e]; [|eauto].
    rewrite Hq. destruct (db_close_outcome E) as [[]|e]; eauto.
  - destruct (truthy (PStr (subject tok))); [|eauto].
    rewrite Hc. eauto.
  - destruct (truthy (PStr (subject tok))); [|eauto].
    destruct (db_connect E) as [[]|e']; [|eauto].
    rewrite Hq. destruct (db_close_outcome E) as [[]|e']; eauto.
  - destruct (truthy (PStr (subject tok))); [|eauto].
    destruct (db_connect E) as [[]|e']; [|eauto].
    rewrite Hc. destruct (db_get_profile_by_user_id E (subject tok)) as [[p|]|e']; eauto.
Qed.

Lemma lookup_found tok p w :
  get_access_token E = Ok (Some tok) →
  subject tok ≠ EmptyString →
  db_connect E = Ok () →
  db_get_profile_by_user_id E (subject tok) = Ok (Some p) →
  db_close_outcome E = Ok () →
  ∃ w', lookup_twitter_data E w =
    (Ok (twitter_data_of (or_default (twitter_handle p) "twitter_user")
                         (or_default (display_name p) "Twitter User")
                         (or_default (avatar_url p) default_avatar)), w').
Proof.
  intros Htok Hsub Hconn Hq Hclose. unfold lookup_twitter_data. run_M.
  rewrite Htok. destruct (subject tok) as [|c s] eqn:Hs; [done|]. simpl.
  rewrite Hconn. rewrite Hq, Hclose. eauto.
Qed.

Lemma read_widget_returns w : ∃ html, read_widget E w = (Ok html, w).
Proof. unfold read_widget. run_M. destruct (read_widget_html E); eauto. Qed.

Lemma handle_create_run arguments tc gi g w :
  select_gradient E arguments = Ok (tc, gi, g) →
  ∃ td w' r, lookup_twitter_data E w = (Ok td, w')
    ∧ handle_create_gradient_tweet E arguments w = (Ok r, w')
    ∧ tweet_result r tc gi g td.
Proof.
  intros Hsel.
  destruct (lookup_twitter_data_returns w) as (td & w' & Hl & _ & _).
  destruct (read_widget_returns w') as [html Hw].
  exists td, w'. unfold handle_create_gradient_tweet.
  unfold mbind at 1, M_bind, liftR. rewrite Hsel.
  unfold mbind at 1, M_bind. rewrite Hl.
  unfold mbind at 1, M_bind. rewrite Hw.
  eexists. split; [done|]. split; [reflexivity|].
  split; [done|]. split; [done|].
  eexists. split; [reflexivity|].
  repeat split; by simplify_map_eq.
Qed.

Lemma handle_create_raise arguments e w :
  select_gradient E arguments = Raise e →
  handle_create_gradient_tweet E arguments w = (Raise e, w).
Proof.
  intros Hsel. unfold handle_create_gradient_tweet.
  unfold mbind at 1, M_bind, liftR. by rewrite Hsel.
Qed.

(** The test [0 <= x < n] on a float [x]. *)
Lemma in_range_float (q : Q) (n : Z) :
  Qle_bool (inject_Z 0) q && (Qle_bool q (inject_Z n) && negb (Qeq_bool q (inject_Z n))) = true
  ↔ (0 <= q ∧ q < inject_Z n)%Q.
Proof.
  rewrite !andb_true_iff, negb_true_iff, !Qle_bool_iff.
  split.
  - intros (H0 & Hle & Hne). split; [done|].
    apply Qle_lteq in Hle as [Hlt|Heq]; [done|].
    apply Qeq_bool_iff in Heq. congruence.
  - intros (H0 & Hlt). split; [done|]. split; [by apply Qlt_le_weak|].
    destruct (Qeq_bool q (inject_Z n)) eqn:Heq; [|done].
    apply Qeq_bool_iff in Heq. rewrite Heq in Hlt. by apply Qlt_irrefl in Hlt.
Qed.

Lemma select_gradient_int (a : dict) i :
  GRADIENTS E ≠ [] →
  a !! "gradientIndex" = None ∧ i = 0%Z ∨ a !! "gradientIndex" = Some (PInt i) →
  ∃ idx g,
    select_gradient E (PDict a) =
      Ok (match a !! "tweetContent" with Some v => v | None => PStr EmptyString end,
          PInt idx, g)
    ∧ GRADIENTS E !! Z.to_nat idx = Some g
    ∧ (0 ≤ idx)%Z
    ∧ ((0 ≤ i < Z.of_nat (length (GRADIENTS E)))%Z → idx = i)
    ∧ ((i < 0 ∨ Z.of_nat (length (GRADIENTS E)) ≤ i)%Z → idx = 0%Z).
Proof.
  intros Hne Hgi.
  assert (Hgi' : match a !! "gradientIndex" with Some v => v | None => PInt 0 end = PInt i).
  { by destruct Hgi as [[-> ->]| ->]. }
  assert (Hlen : (0 < Z.of_nat (length (GRADIENTS E)))%Z).
  { destruct (GRADIENTS E); [done | simpl; lia]. }
  assert (H0 : ∃ g0, GRADIENTS E !! Z.to_nat 0 = Some g0).
  { destruct (GRADIENTS E) as [|g0 gs]; [done | by exists g0]. }
  destruct H0 as [g0 Hg0].
  unfold select_gradient. cbn [py_get].
  unfold mbind, result_bind, mret, result_ret. rewrite Hgi'.
  cbn [py_int_le py_lt_int].
  destruct (0 <=? i)%Z eqn:Hlo;
    [destruct (i <? Z.of_nat (length (GRADIENTS E)))%Z eqn:Hhi|];
    cbn [negb]; unfold py_index; cbn [as_int].
  - apply Z.leb_le in Hlo. apply Z.ltb_lt in Hhi.
    rewrite (proj2 (Z.ltb_ge i 0)) by done.
    rewrite (proj2 (Z.ltb_ge i 0)) by done.
    destruct (lookup_lt_is_Some_2 (GRADIENTS E) (Z.to_nat i)) as [g Hg]; [lia|].
    rewrite Hg. exists i, g. repeat split; try done. lia.
  - apply Z.leb_le in Hlo. apply Z.ltb_ge in Hhi.
    change (0 <? 0)%Z with false. cbv iota. rewrite Hg0.
    exists 0%Z, g0. repeat split; try done. lia.
  - apply Z.leb_gt in Hlo.
    change (0 <? 0)%Z with false. cbv iota. rewrite Hg0.
    exists 0%Z, g0. repeat split; try done. lia.
Qed.
End TweetTool.

Lemma or_default_field_or x d : field_or x d (or_default x d).
Proof.
  split.
  - by intros [-> | ->].
  - intros s -> Hs. by destruct s.
Qed.

Lemma Ok_inj {A} (x y : A) : Ok x = Ok y → x = y.
Proof. by intros [= ->]. Qed.

Lemma twitter_data_of_inj h n a h' n' a' :
  twitter_data_of h n a = twitter_data_of h' n' a' → h = h' ∧ n = n' ∧ a = a'.
Proof.
  intros Heq.
  assert (Hh := f_equal (λ m : dict, m !! "handle") Heq).
  assert (Hn := f_equal (λ m : dict, m !! "name") Heq).
  assert (Ha := f_equal (λ m : dict, m !! "avatar") Heq).
  unfold twitter_data_of in Hh, Hn, Ha. simplify_map_eq. done.
Qed.

(** X22.  With a palette that is not empty, a call of create-gradient-tweet
    whose [gradientIndex] is absent or an integer returns a result without
    the error flag; the gradient it uses is entry 0 when the index is absent
    or out of range, and the entry at the index when that lies in
    [0, len(GRADIENTS)). *)
Theorem gradient_index_clamped (E : Env) (a : dict) (w : World) :
  GRADIENTS E ≠ [] →
  a !! "gradientIndex" = None ∨ (∃ i, a !! "gradientIndex" = Some (PInt i)) →
  ∃ r w' tc idx g td,
    handle_create_gradient_tweet E (PDict a) w = (Ok r, w')
    ∧ tweet_result r tc (PInt idx) g td
    ∧ GRADIENTS E !! Z.to_nat idx = Some g
    ∧ (0 ≤ idx)%Z
    ∧ (a !! "gradientIndex" = None → idx = 0%Z)
    ∧ (∀ i, a !! "gradientIndex" = Some (PInt i) →
         ((i < 0 ∨ Z.of_nat (length (GRADIENTS E)) ≤ i)%Z → idx = 0%Z)
         ∧ ((0 ≤ i < Z.of_nat (length (GRADIENTS E)))%Z → idx = i)).
Proof.
  intros Hne Hgi.
  assert (∃ i, a !! "gradientIndex" = None ∧ i = 0%Z
               ∨ a !! "gradientIndex" = Some (PInt i)) as [i Hi].
  { destruct Hgi as [Hn|[i Hi]]; [exists 0%Z; by left | exists i; by right]. }
  destruct (select_gradient_int E a i Hne Hi) as (idx & g & Hsel & Hg & Hpos & Hin & Hout).
  destruct (handle_create_run E _ _ _ _ w Hsel) as (td & w' & r & _ & Hrun & Hres).
  eexists r, w', _, idx, g, td.
  split; [exact Hrun|]. split; [exact Hres|]. split; [exact Hg|].
  split; [exact Hpos|]. split.
  - intros Hn. destruct Hi as [[_ ->]|Hi]; [|congruence].
    apply Hin. destruct (GRADIENTS E); [done | simpl; lia].
  - intros j Hj. destruct Hi as [[Hn _]|Hi]; [congruence|].
    assert (j = i) as -> by congruence. auto.
Qed.

Lemma gradient_index_clamped_witness :
  GRADIENTS alice_env ≠ []
  ∧ tweet_arguments (PInt 999) !! "gradientIndex" = Some (PInt 999)
  ∧ ∃ r w' tc idx g td,
      handle_create_gradient_tweet alice_env (PDict (tweet_arguments (PInt 999))) fresh_world
        = (Ok r, w')
      ∧ tweet_result r tc (PInt idx) g td
      ∧ GRADIENTS alice_env !! Z.to_nat idx = Some g
      ∧ (0 ≤ idx)%Z
      ∧ (tweet_arguments (PInt 999) !! "gradientIndex" = None → idx = 0%Z)
      ∧ (∀ i, tweet_arguments (PInt 999) !! "gradientIndex" = Some (PInt i) →
           ((i < 0 ∨ Z.of_nat (length (GRADIENTS alice_env)) ≤ i)%Z → idx = 0%Z)
           ∧ ((0 ≤ i < Z.of_nat (length (GRADIENTS alice_env)))%Z → idx = i)).
Proof.
  split; [discriminate|]. split; [reflexivity|].
  apply (gradient_index_clamped alice_env (tweet_arguments (PInt 999)) fresh_world).
  - discriminate.
  - right. exists 999%Z. reflexivity.
Defined.

(** C4.  When the lookup of the caller's profile fails in any way (no
    principal, no stored profile, an error of the store), a call of
    create-gradient-tweet that got past its arguments returns a result
    without the error flag whose identity is the default one, with handle
    [twitter_user]. *)
Theorem lookup_failure_default_identity (E : Env) (arguments tc gi : PyVal)
    (g : Gradient) (w : World) :
  select_gradient E arguments = Ok (tc, gi, g) →
  lookup_fails E →
  ∃ r w',
    handle_create_gradient_tweet E arguments w = (Ok r, w')
    ∧ tweet_result r tc gi g default_twitter_data
    ∧ default_twitter_data !! "handle" = Some (PStr "twitter_user").
Proof.
  intros Hsel Hf.
  destruct (handle_create_run E _ _ _ _ w Hsel) as (td & w' & r & Hl & Hrun & Hres).
  destruct (lookup_fails_default E w Hf) as [w'' Hd].
  rewrite Hd in Hl.
  assert (td = default_twitter_data) as ->.
  { symmetry. apply Ok_inj. exact (f_equal fst Hl). }
  exists r, w'. split; [done|]. split; [done|]. reflexivity.
Qed.

Lemma lookup_failure_default_identity_witness :
  select_gradient guest_env (PDict (tweet_arguments (PInt 1)))
    = Ok (PStr "hello", PInt 1, {| gradient_name := "Ocean" |})
  ∧ lookup_fails guest_env
  ∧ ∃ r w',
      handle_create_gradient_tweet guest_env (PDict (tweet_arguments (PInt 1))) fresh_world
        = (Ok r, w')
      ∧ tweet_result r (PStr "hello") (PInt 1) {| gradient_name := "Ocean" |}
          default_twitter_data
      ∧ default_twitter_data !! "handle" = Some (PStr "twitter_user").
Proof.
  split; [reflexivity|].
  split; [apply no_principal; reflexivity|].
  apply (lookup_failure_default_identity guest_env (PDict (tweet_arguments (PInt 1)))
           (PStr "hello") (PInt 1) {| gradient_name := "Ocean" |} fresh_world).
  - reflexivity.
  - apply no_principal. reflexivity.
Defined.

(** C10.  The identity in a result of create-gradient-tweet, read under the
    keys [handle], [name] and [avatar] of its [profile], never has an empty
    handle, name or avatar; and when a stored profile is found, each of the
    three is the profile's column when that holds text and the default for
    that field when the column is null or empty. *)
Theorem identity_fields_never_empty (E : Env) (arguments tc gi : PyVal)
    (g : Gradient) (w : World) :
  select_gradient E arguments = Ok (tc, gi, g) →
  ∃ r w' td h n a,
    handle_create_gradient_tweet E arguments w = (Ok r, w')
    ∧ tweet_result r tc gi g td
    ∧ td !! "handle" = Some (PStr h)
    ∧ td !! "name" = Some (PStr n)
    ∧ td !! "avatar" = Some (PStr a)
    ∧ h ≠ EmptyString ∧ n ≠ EmptyString ∧ a ≠ EmptyString
    ∧ (∀ tok p,
         get_access_token E = Ok (Some tok) →
         subject tok ≠ EmptyString →
         db_connect E = Ok () →
         db_get_profile_by_user_id E (subject tok) = Ok (Some p) →
         db_close_outcome E = Ok () →
         field_or (twitter_handle p) "twitter_user" h
         ∧ field_or (display_name p) "Twitter User" n
         ∧ field_or (avatar_url p) default_avatar a).
Proof.
  intros Hsel.
  destruct (handle_create_run E _ _ _ _ w Hsel) as (td & w' & r & Hl & Hrun & Hres).
  destruct (lookup_twitter_data_returns E w)
    as (td' & w'' & Hl' & _ & h & n & a & Htd & Hh & Hn & Ha).
  rewrite Hl in Hl'.
  assert (td = twitter_data_of h n a) as ->.
  { rewrite <- Htd. apply Ok_inj. exact (f_equal fst Hl'). }
  exists r, w', (twitter_data_of h n a), h, n, a.
  split; [exact Hrun|]. split; [exact Hres|].
  split; [unfold twitter_data_of; by simplify_map_eq|].
  split; [unfold twitter_data_of; by simplify_map_eq|].
  split; [unfold twitter_data_of; by simplify_map_eq|].
  split; [exact Hh|]. split; [exact Hn|]. split; [exact Ha|].
  intros tok p Htok Hsub Hconn Hq Hclose.
  destruct (lookup_found E tok p w Htok Hsub Hconn Hq Hclose) as [w1 Hfound].
  rewrite Hl in Hfound. apply (f_equal fst) in Hfound. simpl in Hfound.
  apply Ok_inj, twitter_data_of_inj in Hfound as (-> & -> & ->).
  repeat split; apply or_default_field_or.
Qed.

Lemma identity_fields_never_empty_witness :
  select_gradient alice_env (PDict (tweet_arguments (PInt 2)))
    = Ok (PStr "hello", PInt 2, {| gradient_name := "Aurora" |})
  ∧ ∃ r w' td h n a,
      handle_create_gradient_tweet alice_env (PDict (tweet_arguments (PInt 2))) fresh_world
        = (Ok r, w')
      ∧ tweet_result r (PStr "hello") (PInt 2) {| gradient_name := "Aurora" |} td
      ∧ td !! "handle" = Some (PStr h)
      ∧ td !! "name" = Some (PStr n)
      ∧ td !! "avatar" = Some (PStr a)
      ∧ h ≠ EmptyString ∧ n ≠ EmptyString ∧ a ≠ EmptyString
      ∧ (∀ tok p,
           get_access_token alice_env = Ok (Some tok) →
           subject tok ≠ EmptyString →
           db_connect alice_env = Ok () →
           db_get_profile_by_user_id alice_env (subject tok) = Ok (Some p) →
           db_close_outcome alice_env = Ok () →
           field_or (twitter_handle p) "twitter_user" h
           ∧ field_or (display_name p) "Twitter User" n
           ∧ field_or (avatar_url p) default_avatar a).
Proof.
  split; [reflexivity|].
  apply (identity_fields_never_empty alice_env (PDict (tweet_arguments (PInt 2)))
           (PStr "hello") (PInt 2) {| gradient_name := "Aurora" |} fresh_world).
  reflexivity.
Defined.

(** C2.  A call of create-gradient-tweet whose [gradientIndex] is the string
    ["3"] does not return a result: the comparison with [0] raises
    [TypeError], and the exception leaves [_call_tool]. *)
Theorem call_tool_string_index_escapes (E : Env) (w : World) :
  _call_tool E "create-gradient-tweet" (PDict (tweet_arguments (PStr "3"))) w
  = (Raise (Exn TypeError "'<=' not supported between instances of 'int' and 'str'"), w).
Proof. reflexivity. Qed.

(** C3.  The argument handling of create-gradient-tweet stands outside every
    [try], and its test of the range lets a float through: a call without
    arguments raises [AttributeError] at the first [get], and a call whose
    [gradientIndex] is a float in [0, len(GRADIENTS)), [1.0] for one, passes
    the test and raises [TypeError] when the palette is indexed.  Either
    exception leaves [_call_tool], with nothing else done. *)
Theorem create_gradient_tweet_index_escapes (E : Env) (w : World) :
  _call_tool E "create-gradient-tweet" PNone w
  = (Raise (Exn AttributeError "'NoneType' object has no attribute 'get'"), w)
  ∧ (∀ (a : dict) (q : Q),
       a !! "gradientIndex" = Some (PFloat q) →
       (0 <= q ∧ q < inject_Z (Z.of_nat (length (GRADIENTS E))))%Q →
       _call_tool E "create-gradient-tweet" (PDict a) w
       = (Raise (Exn TypeError "list indices must be integers or slices, not float"), w)).
Proof.
  split; [reflexivity|].
  intros a q Hv Hin. unfold _call_tool.
  change (String.eqb "create-gradient-tweet" "get-my-profile") with false.
  change (String.eqb "create-gradient-tweet" "create-gradient-tweet") with true.
  cbv iota. apply handle_create_raise.
  unfold select_gradient. cbn [py_get]. unfold mbind, result_bind, mret, result_ret.
  rewrite Hv. cbn [py_int_le py_lt_int].
  apply in_range_float in Hin. apply andb_true_iff in Hin as [-> ->].
  reflexivity.
Qed.

Lemma create_gradient_tweet_index_escapes_witness :
  tweet_arguments (PFloat 1) !! "gradientIndex" = Some (PFloat 1)
  ∧ (0 <= 1 ∧ 1 < inject_Z (Z.of_nat (length (GRADIENTS alice_env))))%Q
  ∧ _call_tool alice_env "create-gradient-tweet" (PDict (tweet_arguments (PFloat 1)))
      fresh_world
    = (Raise (Exn TypeError "list indices must be integers or slices, not float"),
       fresh_world).
Proof.
  assert (Hin : (0 <= 1 ∧ 1 < inject_Z (Z.of_nat (length (GRADIENTS alice_env))))%Q).
  { unfold Qle, Qlt. simpl. lia. }
  split; [reflexivity|]. split; [exact Hin|].
  apply (proj2 (create_gradient_tweet_index_escapes alice_env fresh_world)
           (tweet_arguments (PFloat 1)) 1%Q); [reflexivity | exact Hin].
Defined.

(** The other tools always return a result. *)
Lemma call_tool_other_tools_return (E : Env) (name : string) (arguments : PyVal) (w : World) :
  name ≠ "create-gradient-tweet" →
  ∃ r, _call_tool E name arguments w = (Ok r, w).
Proof.
  intros Hname. unfold _call_tool.
  destruct (String.eqb name "get-my-profile").
  - unfold handle_get_my_profile. run_M.
    destruct (get_access_token E) as [[tok|]|e]; eauto.
  - rewrite (proj2 (String.eqb_neq _ _) Hname). eauto.
Qed.

(** ** The profile tool *)

(** C5.  Without a principal, get-my-profile returns a result with the
    error flag, the message that authentication is required, and no
    structured content.  With a principal it returns a result without the
    error flag whose structured content holds the subject, the client id,
    the scopes and the claims, and whose text is the summary that ends with
    the number of claims. *)
Theorem get_my_profile_result (E : Env) (w : World) :
  (get_access_token E = Ok None →
     ∃ r, handle_get_my_profile E w = (Ok r, w)
       ∧ isError r = true
       ∧ content r =
           [ {| text := "Authentication required. Please connect your account first." |} ]
       ∧ structuredContent r = None)
  ∧ (∀ tok, get_access_token E = Ok (Some tok) →
       ∃ r sc, handle_get_my_profile E w = (Ok r, w)
         ∧ isError r = false
         ∧ structuredContent r = Some sc
         ∧ sc !! "user_id" = Some (PStr (subject tok))
         ∧ sc !! "client_id" = Some (PStr (client_id tok))
         ∧ sc !! "scopes" = Some (PList (PStr <$> scopes tok))
         ∧ sc !! "jwt_claims" = Some (PDict (claims tok))
         ∧ content r =
             [ {| text :=
                    "Profile Information:" +:+ nl +:+
                    "- User ID: " +:+ subject tok +:+ nl +:+
                    "- Client ID: " +:+ client_id tok +:+ nl +:+
                    "- Scopes: " +:+
                      (match scopes tok with
                       | [] => "none"
                       | _ :: _ => String.concat ", " (scopes tok)
                       end) +:+ nl +:+
                    "- JWT Claims: " +:+ pretty (size (claims tok)) +:+ " claims present" |} ]).
Proof.
  split.
  - intros Hnone. unfold handle_get_my_profile. run_M. rewrite Hnone.
    eexists. split; [reflexivity|]. by repeat split.
  - intros tok Htok. unfold handle_get_my_profile. run_M. rewrite Htok.
    eexists _, _. split; [reflexivity|]. split; [reflexivity|].
    split; [reflexivity|].
    repeat split; by simplify_map_eq.
Qed.

Lemma get_my_profile_result_witness :
  get_access_token guest_env = Ok None
  ∧ ∃ r, handle_get_my_profile guest_env fresh_world = (Ok r, fresh_world)
      ∧ isError r = true
      ∧ content r =
          [ {| text := "Authentication required. Please connect your account first." |} ]
      ∧ structuredContent r = None.
Proof.
  split; [reflexivity|].
  apply (proj1 (get_my_profile_result guest_env fresh_world)). reflexivity.
Defined.

(** ** Saving a profile *)

Lemma failure_refused message status : refused (failure message status) status.
Proof. split; [done|]. unfold failure. by simplify_map_eq. Qed.

(** A body that is not a JSON object never reaches the test of the token:
    the handler of exceptions answers. *)
Lemma save_profile_unparsed_body (E : Env) (request_body : string) (w : World) :
  (∃ e, json_loads E request_body = Raise e)
  ∨ (∃ v, json_loads E request_body = Ok v ∧ ∀ d, v ≠ PDict d) →
  ∃ r, save_profile E request_body w = (Ok r, w) ∧ refused r 500.
Proof.
  intros [[e He]|(v & Hv & Hnd)]; unfold save_profile; run_M; rewrite ?He, ?Hv.
  - eexists. split; [reflexivity | apply failure_refused].
  - destruct v; try (eexists; split; [reflexivity | apply failure_refused]).
    by destruct (Hnd d).
Qed.

Example save_profile_empty_object :
  fst (save_profile alice_env "{}" fresh_world) = Ok (failure "session_token required" 400).
Proof. reflexivity. Qed.

Example save_profile_empty_body :
  fst (save_profile alice_env EmptyString fresh_world)
  = Ok (failure "Error: Expecting value: line 1 column 1 (char 0)" 500).
Proof. reflexivity. Qed.

Example save_profile_array_body :
  fst (save_profile alice_env "[]" fresh_world)
  = Ok (failure "Error: 'list' object has no attribute 'get'" 500).
Proof. reflexivity. Qed.

Example save_profile_no_linked_profile :
  fst (save_profile guest_env session_body fresh_world)
  = Ok (failure "No Twitter profile found" 400).
Proof. reflexivity. Qed.

Example save_profile_outage :
  save_profile outage_env session_body fresh_world
  = (Ok (failure "Error: connection refused" 500), fresh_world).
Proof. reflexivity. Qed.

Example save_profile_log :
  db_log (snd (save_profile alice_env session_body fresh_world)) = [Acquire 0; Release 0].
Proof. reflexivity. Qed.

(** The array body carries no session token, and the answer to it is not
    the status 400 of a missing token: the call of [get] on the list raises,
    and the handler of exceptions answers with status 500. *)
Lemma save_profile_tokenless_array_body :
  json_loads alice_env "[]" = Ok (PList [])
  ∧ (¬ ∃ r w', save_profile alice_env "[]" fresh_world = (Ok r, w') ∧ refused r 400)
  ∧ ∃ r, save_profile alice_env "[]" fresh_world = (Ok r, fresh_world)
      ∧ body r !! "message" = Some (PStr "Error: 'list' object has no attribute 'get'")
      ∧ refused r 500.
Proof.
  split; [reflexivity|]. split.
  - intros (r & w' & Hrun & Hstatus & _).
    assert (Hr : Ok r = fst (save_profile alice_env "[]" fresh_world)) by by rewrite Hrun.
    apply Ok_inj in Hr. subst r. discriminate Hstatus.
  - eexists. split; [reflexivity|]. split; [|apply failure_refused].
    unfold failure. by simplify_map_eq.
Qed.

(** C8.  A body of save-profile that does not parse, or that
    parses to something other than a JSON object, is answered with status
    500 and [success] false.  For a body that is a JSON object: without a
    session token the response has status 400 and [success] false; when the
    exchanged user data has no linked Twitter profile, likewise; when the
    store fails to save the profile the response has status 500 and
    [success] false; and when the profile is saved the response has status
    200, [success] true, and under ["profile"] the handle and the display
    name of the saved profile, [None] for a column that is null. *)
Theorem save_profile_responses (E : Env) (request_body : string) (w : World) :
  ((∃ e, json_loads E request_body = Raise e)
   ∨ (∃ v, json_loads E request_body = Ok v ∧ ∀ d, v ≠ PDict d) →
     ∃ r, save_profile E request_body w = (Ok r, w) ∧ refused r 500)
  ∧ (∀ d : dict, json_loads E request_body = Ok (PDict d) →
      (d !! "session_token" = None
       ∨ (∃ v, d !! "session_token" = Some v ∧ truthy v = false) →
         ∃ r, save_profile E request_body w = (Ok r, w) ∧ refused r 400)
      ∧ (∀ st ud tp,
           d !! "session_token" = Some st → truthy st = true →
           verify_stytch_session_token E st = Ok ud →
           extract_twitter_profile E ud = Ok tp →
           (truthy tp = false →
              ∃ r, save_profile E request_body w = (Ok r, w) ∧ refused r 400)
           ∧ (truthy tp = true → store_fails E tp →
              ∃ r w', save_profile E request_body w = (Ok r, w') ∧ refused r 500)
           ∧ (∀ p, truthy tp = true →
                db_connect E = Ok () →
                db_get_or_create_profile E tp = Ok (Some p) →
                db_close_outcome E = Ok () →
                ∃ r w' pr, save_profile E request_body w = (Ok r, w')
                  ∧ status_code r = 200%Z
                  ∧ body r !! "success" = Some (PBool true)
                  ∧ body r !! "profile" = Some (PDict pr)
                  ∧ pr !! "twitter_handle"
                    = Some (match twitter_handle p with Some h => PStr h | None => PNone end)
                  ∧ pr !! "display_name"
                    = Some (match display_name p with Some n => PStr n | None => PNone end)))).
Proof.
  split; [apply save_profile_unparsed_body|].
  intros d Hjson. split.
  - intros Hno. unfold save_profile. run_M. rewrite Hjson. cbn [py_get].
    destruct Hno as [-> | (v & -> & ->)]; cbn [truthy negb];
      eexists; (split; [reflexivity | apply failure_refused]).
  - intros st ud tp Hst Htruthy Hverify Hextract.
    unfold save_profile. run_M. rewrite Hjson. cbn [py_get].
    rewrite Hst, Htruthy. cbn [negb]. rewrite Hverify, Hextract.
    split; [|split].
    + intros ->. cbn [negb]. eexists. split; [reflexivity | apply failure_refused].
    + intros -> Hfail. cbn [negb].
      destruct (db_connect E) as [[]|e] eqn:Hconn.
      * destruct (db_get_or_create_profile E tp) as [[p|]|e] eqn:Hq;
          destruct (db_close_outcome E) as [[]|e'] eqn:Hclose;
          try (eexists _, _; split; [reflexivity | apply failure_refused]).
        exfalso. destruct Hfail as [[e ?]|[[e ?]|[?|[e ?]]]]; congruence.
      * eexists _, _. split; [reflexivity | apply failure_refused].
    + intros p -> Hconn Hq Hclose. cbn [negb].
      rewrite Hconn, Hq, Hclose.
      eexists _, _, _. split; [reflexivity|]. split; [reflexivity|].
      split; [by simplify_map_eq|]. split; [by simplify_map_eq|].
      unfold py_opt_str.
      split; [destruct (twitter_handle p) | destruct (display_name p)];
        by simplify_map_eq.
Qed.

Lemma save_profile_responses_witness :
  json_loads alice_env session_body = Ok (PDict (<["session_token" := PStr "sess-1"]> ∅))
  ∧ truthy alice_twitter_profile = true
  ∧ ∃ r w' pr, save_profile alice_env session_body fresh_world = (Ok r, w')
      ∧ status_code r = 200%Z
      ∧ body r !! "success" = Some (PBool true)
      ∧ body r !! "profile" = Some (PDict pr)
      ∧ pr !! "twitter_handle"
        = Some (match twitter_handle alice_profile with Some h => PStr h | None => PNone end)
      ∧ pr !! "display_name"
        = Some (match display_name alice_profile with Some n => PStr n | None => PNone end).
Proof.
  split; [reflexivity|]. split; [reflexivity|].
  apply (proj2 (proj2 (proj2
           (proj2 (save_profile_responses alice_env session_body fresh_world)
              (<["session_token" := PStr "sess-1"]> ∅) eq_refl)
           (PStr "sess-1") (PDict ∅) alice_twitter_profile
           eq_refl eq_refl eq_refl eq_refl)) alice_profile);
    reflexivity.
Defined.

(** C9.  Whatever its arguments and however the outside calls end, a call
    of create-gradient-tweet or of save-profile leaves the connections as it
    found them: it acquired none, or it acquired one and released it. *)
Theorem connections_released (E : Env) (w : World) :
  (∀ arguments, released w (snd (handle_create_gradient_tweet E arguments w)))
  ∧ (∀ request_body, released w (snd (save_profile E request_body w))).
Proof.
  split.
  - intros arguments.
    destruct (select_gradient E arguments) as [[[tc gi] g]|e] eqn:Hsel.
    + destruct (handle_create_run E _ _ _ _ w Hsel) as (td & w' & r & Hl & Hrun & _).
      destruct (lookup_twitter_data_returns E w) as (td' & w'' & Hl' & Hrel & _).
      rewrite Hl in Hl'. rewrite Hrun. simpl.
      by replace w' with w'' by exact (eq_sym (f_equal snd Hl')).
    + rewrite (handle_create_raise E _ _ w Hsel). apply released_refl.
  - intros request_body. unfold save_profile. run_M.
    destruct (json_loads E request_body) as [data|e]; [|apply released_refl].
    destruct (py_get data "session_token" PNone) as [st|e]; [|apply released_refl].
    destruct (negb (truthy st)); [apply released_refl|].
    destruct (verify_stytch_session_token E st) as [ud|e]; [|apply released_refl].
    destruct (extract_twitter_profile E ud) as [tp|e]; [|apply released_refl].
    destruct (negb (truthy tp)); [apply released_refl|].
    destruct (db_connect E) as [[]|e]; [|apply released_refl].
    destruct (db_get_or_create_profile E tp) as [[p|]|e];
      destruct (db_close_outcome E) as [[]|e'];
      (eexists; split; [simpl; by rewrite <- app_assoc | right; eauto]).
Qed.

(** * Further properties *)

(** ** Token verification, continued *)

(** X1.  A verified principal carries the token it was made from and the
    claims of that token unchanged, and its subject is their ['sub']. *)
Theorem verify_token_keeps_claims (E : Env) (tok : string) (p : StytchAccessToken) :
  verify_token E tok = Ok (Some p) →
  token p = tok
  ∧ verify_jwt_token E tok = Ok (PDict (claims p))
  ∧ claims p !! "sub" = Some (PStr (subject p)).
Proof.
  intros Hp.
  destruct (verify_token_some E tok p Hp) as (d & Hjwt & Htok & Hcl & Hsub & _).
  subst d. done.
Qed.

Lemma verify_token_keeps_claims_witness :
  verify_token alice_env "eyJ.alice" = Ok (Some alice_token)
  ∧ token alice_token = "eyJ.alice"
  ∧ verify_jwt_token alice_env "eyJ.alice" = Ok (PDict (claims alice_token))
  ∧ claims alice_token !! "sub" = Some (PStr (subject alice_token)).
Proof.
  split; [reflexivity|].
  apply (verify_token_keeps_claims alice_env "eyJ.alice" alice_token). reflexivity.
Defined.

(** X2.  When the JWT library raises, or hands back something that is not a
    dictionary, verification answers [None]: the exception does not leave
    [verify_token]. *)
Theorem verify_token_library_failure (E : Env) (tok : string) :
  (∃ e, verify_jwt_token E tok = Raise e)
  ∨ (∃ v, verify_jwt_token E tok = Ok v ∧ ∀ d, v ≠ PDict d) →
  verify_token E tok = Ok None.
Proof.
  intros [[e He]|(v & Hv & Hnd)]; unfold verify_token, try_except_r.
  - by rewrite He.
  - rewrite Hv. destruct v; try reflexivity. by destruct (Hnd d).
Qed.

Lemma verify_token_library_failure_witness :
  (∃ e, verify_jwt_token
          (example_env (Raise (Exn ExternalError "Signature has expired"))
             (Ok None) (Ok ()) (Ok None) (Ok ()) PNone) "eyJ.old" = Raise e)
  ∧ verify_token
      (example_env (Raise (Exn ExternalError "Signature has expired"))
         (Ok None) (Ok ()) (Ok None) (Ok ()) PNone) "eyJ.old" = Ok None.
Proof.
  split; [eexists; reflexivity|].
  apply verify_token_library_failure. left. eexists. reflexivity.
Defined.

(** X3.  A ['sub'] that is there and falsy (the empty string, null, zero,
    false, an empty list or dictionary) is treated like a missing one. *)
Theorem verify_token_falsy_subject (E : Env) (tok : string) (d : dict) (v : PyVal) :
  verify_jwt_token E tok = Ok (PDict d) →
  d !! "sub" = Some v →
  truthy v = false →
  verify_token E tok = Ok None.
Proof.
  intros Hjwt Hsub Hv. unfold verify_token, try_except_r. rewrite Hjwt. simpl.
  by rewrite Hsub, Hv.
Qed.

Lemma verify_token_falsy_subject_witness :
  verify_jwt_token
    (example_env (Ok (PDict (<["sub" := PStr EmptyString]> alice_claims)))
       (Ok None) (Ok ()) (Ok None) (Ok ()) PNone) "eyJ.x"
  = Ok (PDict (<["sub" := PStr EmptyString]> alice_claims))
  ∧ (<["sub" := PStr EmptyString]> alice_claims) !! "sub" = Some (PStr EmptyString)
  ∧ truthy (PStr EmptyString) = false
  ∧ verify_token
      (example_env (Ok (PDict (<["sub" := PStr EmptyString]> alice_claims)))
         (Ok None) (Ok ()) (Ok None) (Ok ()) PNone) "eyJ.x" = Ok None.
Proof.
  split; [reflexivity|]. split; [reflexivity|]. split; [reflexivity|].
  apply (verify_token_falsy_subject _ "eyJ.x"
           (<["sub" := PStr EmptyString]> alice_claims) (PStr EmptyString));
    reflexivity.
Defined.

(** X4.  A ['scope'] that is there and is not a string (a list of scopes,
    null, a number) makes verification answer [None], whatever the other
    claims are. *)
Theorem verify_token_scope_not_string (E : Env) (tok : string) (d : dict) (v : PyVal) :
  verify_jwt_token E tok = Ok (PDict d) →
  d !! "scope" = Some v →
  (∀ s, v ≠ PStr s) →
  verify_token E tok = Ok None.
Proof.
  intros Hjwt Hscope Hv.
  destruct (verify_token_returns E tok) as [[p|] Hr]; [|done].
  destruct (verify_token_some E tok p Hr) as (d' & Hjwt' & _ & _ & _ & _ & _ & Hsc).
  assert (d' = d) as -> by congruence.
  rewrite Hscope in Hsc. destruct Hsc as (s & -> & _). by destruct (Hv s).
Qed.

Lemma verify_token_scope_not_string_witness :
  verify_jwt_token
    (example_env (Ok (PDict listed_scope_claims)) (Ok None) (Ok ()) (Ok None) (Ok ()) PNone)
    "eyJ.y" = Ok (PDict listed_scope_claims)
  ∧ listed_scope_claims !! "scope" = Some (PList [PStr "openid"])
  ∧ verify_token
      (example_env (Ok (PDict listed_scope_claims)) (Ok None) (Ok ()) (Ok None) (Ok ()) PNone)
      "eyJ.y" = Ok None.
Proof.
  split; [reflexivity|]. split; [reflexivity|].
  apply (verify_token_scope_not_string _ "eyJ.y" listed_scope_claims (PList [PStr "openid"]));
    [reflexivity | reflexivity | discriminate].
Defined.

(** X5.  Verification builds a principal exactly when the claims are a
    dictionary whose ['sub'] is a string that is not empty, whose client
    id (['azp'], else ['client_id'], else the empty string) is a string, and
    whose ['scope'] is absent or a string. *)
Theorem verify_token_accepts_iff (E : Env) (tok : string) :
  (∃ p, verify_token E tok = Ok (Some p))
  ↔ ∃ d sub cid,
      verify_jwt_token E tok = Ok (PDict d)
      ∧ d !! "sub" = Some (PStr sub) ∧ sub ≠ EmptyString
      ∧ match d !! "azp" with
        | Some v => v
        | None => match d !! "client_id" with Some v => v | None => PStr EmptyString end
        end = PStr cid
      ∧ (d !! "scope" = None ∨ ∃ s, d !! "scope" = Some (PStr s)).
Proof.
  split.
  - intros [p Hp].
    destruct (verify_token_some E tok p Hp) as (d & Hjwt & _ & _ & Hsub & Hne & Hcid & Hsc).
    exists d, (subject p), (client_id p). repeat split; try done.
    destruct (d !! "scope") as [v|]; [right | by left].
    destruct Hsc as (s & -> & _). eauto.
  - intros (d & sub & cid & Hjwt & Hsub & Hne & Hcid & Hsc).
    destruct (verify_token_accepts E tok d sub cid Hjwt Hsub Hne Hcid Hsc) as (p & Hp & _).
    eauto.
Qed.

(** ** The profile tool and the dispatcher, continued *)

Lemma append_assoc (s t u : string) : (s +:+ t) +:+ u = s +:+ (t +:+ u).
Proof.
  induction s as [|c s IH]; [reflexivity|].
  change (String c ((s +:+ t) +:+ u) = String c (s +:+ (t +:+ u))).
  by rewrite IH.
Qed.

(** X6.  get-my-profile always returns a result and leaves the database
    alone.  The result has the error flag exactly when no principal could be
    had, and it has structured content exactly when it has no error flag. *)
Theorem get_my_profile_error_flag (E : Env) (w : World) :
  ∃ r, handle_get_my_profile E w = (Ok r, w)
    ∧ (isError r = false ↔ ∃ tok, get_access_token E = Ok (Some tok))
    ∧ (structuredContent r = None ↔ isError r = true).
Proof.
  unfold handle_get_my_profile. run_M.
  destruct (get_access_token E) as [[tok|]|e];
    (eexists; split; [reflexivity|]); simpl; split; split; try done; eauto.
  - by intros [tok Htok].
  - by intros [tok Htok].
Qed.

(** X7.  When the principal of a request is the one that verification built
    from a token, get-my-profile reports the ['sub'] of the token's claims
    as the user, hands the claims back unchanged, and counts them. *)
Theorem verified_principal_is_reported (E : Env) (tok : string)
    (p : StytchAccessToken) (w : World) :
  verify_token E tok = Ok (Some p) →
  get_access_token E = Ok (Some p) →
  ∃ d r sc summary,
    verify_jwt_token E tok = Ok (PDict d)
    ∧ handle_get_my_profile E w = (Ok r, w)
    ∧ isError r = false
    ∧ structuredContent r = Some sc
    ∧ sc !! "user_id" = d !! "sub"
    ∧ sc !! "jwt_claims" = Some (PDict d)
    ∧ content r =
        [ {| text := summary +:+ "- JWT Claims: " +:+ pretty (size d) +:+ " claims present" |} ].
Proof.
  intros Hp Htok.
  destruct (verify_token_some E tok p Hp) as (d & Hjwt & _ & Hcl & Hsub & _).
  unfold handle_get_my_profile. run_M. rewrite Htok.
  exists d. eexists _, _,
    ("Profile Information:" +:+ nl +:+
     "- User ID: " +:+ subject p +:+ nl +:+
     "- Client ID: " +:+ client_id p +:+ nl +:+
     "- Scopes: " +:+
       (match scopes p with [] => "none" | _ :: _ => String.concat ", " (scopes p) end) +:+ nl).
  split; [done|]. split; [reflexivity|]. split; [reflexivity|].
  split; [reflexivity|]. rewrite Hcl.
  split; [by simplify_map_eq|]. split; [by simplify_map_eq|].
  cbn [content]. do 2 f_equal. by rewrite !append_assoc.
Qed.

Lemma verified_principal_is_reported_witness :
  verify_token alice_env "eyJ.alice" = Ok (Some alice_token)
  ∧ get_access_token alice_env = Ok (Some alice_token)
  ∧ ∃ d r sc summary,
      verify_jwt_token alice_env "eyJ.alice" = Ok (PDict d)
      ∧ handle_get_my_profile alice_env fresh_world = (Ok r, fresh_world)
      ∧ isError r = false
      ∧ structuredContent r = Some sc
      ∧ sc !! "user_id" = d !! "sub"
      ∧ sc !! "jwt_claims" = Some (PDict d)
      ∧ content r =
          [ {| text := summary +:+ "- JWT Claims: " +:+ pretty (size d) +:+ " claims present" |} ].
Proof.
  split; [reflexivity|]. split; [reflexivity|].
  apply (verified_principal_is_reported alice_env "eyJ.alice" alice_token fresh_world);
    reflexivity.
Defined.

(** X8.  The tools that [_list_tools] offers are the ones [_call_tool]
    knows: a call gets the answer "Unknown tool" exactly when its name is
    not among the names listed. *)
Theorem listed_tools_are_dispatched (E : Env) (tool : string) (arguments : PyVal)
    (w : World) :
  tool ∈ (name <$> _list_tools)
  ↔ fst (_call_tool E tool arguments w) ≠ Ok (error_result ("Unknown tool: " +:+ tool)).
Proof.
  unfold _call_tool.
  destruct (String.eqb tool "get-my-profile") eqn:Hp.
  { apply String.eqb_eq in Hp as ->. split; [intros _|intros _; apply elem_of_cons; by left].
    unfold handle_get_my_profile. run_M.
    destruct (get_access_token E) as [[tok|]|e]; simpl;
      intros Heq; apply Ok_inj in Heq; discriminate. }
  destruct (String.eqb tool "create-gradient-tweet") eqn:Hc.
  { apply String.eqb_eq in Hc as ->.
    split; [intros _|intros _; apply elem_of_cons; right; apply elem_of_cons; by left].
    destruct (select_gradient E arguments) as [[[tc gi] g]|e] eqn:Hsel.
    - destruct (handle_create_run E _ _ _ _ w Hsel) as (td & w' & r & _ & -> & Hflag & _).
      simpl. intros Heq. apply Ok_inj in Heq. by subst r.
    - rewrite (handle_create_raise E _ _ w Hsel). done. }
  apply String.eqb_neq in Hp, Hc. split.
  - intros Hin. cbn in Hin. rewrite !elem_of_cons, elem_of_nil in Hin.
    by destruct Hin as [->|[->|[]]].
  - intros Hneq. by destruct Hneq.
Qed.

(** ** The tweet tool, continued *)

(** The argument handling gets past the arguments exactly for the accepted
    values of the index. *)
Lemma select_gradient_decides (E : Env) (a : dict) :
  GRADIENTS E ≠ [] →
  (∃ x, select_gradient E (PDict a) = Ok x)
  ↔ index_accepted (length (GRADIENTS E)) (a !! "gradientIndex").
Proof.
  intros Hne.
  assert (H0 : ∃ g0, GRADIENTS E !! 0%nat = Some g0).
  { destruct (GRADIENTS E) as [|g0 gs]; [done | by exists g0]. }
  destruct H0 as [g0 Hg0].
  destruct (a !! "gradientIndex") as [v|] eqn:Hv.
  2:{ split; [done|]. intros _.
      destruct (select_gradient_int E a 0 Hne) as (idx & g & Hsel & _); eauto. }
  destruct v as [|b|i|q|s|l|d]; simpl.
  - split; [|done]. intros [x Hx]. unfold select_gradient in Hx. cbn [py_get] in Hx.
    unfold mbind, result_bind in Hx. by rewrite Hv in Hx.
  - split; [done|]. intros _.
    unfold select_gradient. cbn [py_get]. unfold mbind, result_bind, mret, result_ret.
    rewrite Hv. cbn [py_int_le py_lt_int].
    destruct b.
    + change (0 <=? 1)%Z with true. cbv iota.
      destruct (1 <? Z.of_nat (length (GRADIENTS E)))%Z eqn:Hlt; cbn [negb].
      * unfold py_index. cbn [as_int]. change (1 <? 0)%Z with false. cbv iota zeta.
        change (1 <? 0)%Z with false. cbv iota.
        apply Z.ltb_lt in Hlt.
        destruct (lookup_lt_is_Some_2 (GRADIENTS E) (Z.to_nat 1)) as [g Hg]; [lia|].
        rewrite Hg. eauto.
      * unfold py_index. cbn [as_int]. change (0 <? 0)%Z with false. cbv iota zeta.
        change (0 <? 0)%Z with false. cbv iota. change (Z.to_nat 0) with 0%nat.
        rewrite Hg0. eauto.
    + change (0 <=? 0)%Z with true. cbv iota.
      assert ((0 <? Z.of_nat (length (GRADIENTS E)))%Z = true) as ->.
      { apply Z.ltb_lt. destruct (GRADIENTS E); [done | simpl; lia]. }
      cbn [negb]. unfold py_index. cbn [as_int]. change (0 <? 0)%Z with false.
      cbv iota zeta. change (0 <? 0)%Z with false. cbv iota.
      change (Z.to_nat 0) with 0%nat. rewrite Hg0. eauto.
  - split; [done|]. intros _.
    destruct (select_gradient_int E a i Hne) as (idx & g & Hsel & _); eauto.
  - unfold select_gradient. cbn [py_get]. unfold mbind, result_bind, mret, result_ret.
    rewrite Hv. cbn [py_int_le py_lt_int].
    rewrite <- (in_range_float q (Z.of_nat (length (GRADIENTS E)))).
    destruct (Qle_bool (inject_Z 0) q); cbn [andb].
    + destruct (Qle_bool q _ && negb (Qeq_bool q _)); cbn [negb].
      * split; [intros [x Hx]; discriminate | intros []; done].
      * unfold py_index. cbn [as_int]. change (0 <? 0)%Z with false. cbv iota zeta.
        change (0 <? 0)%Z with false. cbv iota. change (Z.to_nat 0) with 0%nat.
        rewrite Hg0. split; [discriminate | eauto].
    + cbn [negb]. unfold py_index. cbn [as_int]. change (0 <? 0)%Z with false.
      cbv iota zeta. change (0 <? 0)%Z with false. cbv iota.
      change (Z.to_nat 0) with 0%nat. rewrite Hg0. split; [discriminate | eauto].
  - split; [|done]. intros [x Hx]. unfold select_gradient in Hx. cbn [py_get] in Hx.
    unfold mbind, result_bind in Hx. by rewrite Hv in Hx.
  - split; [|done]. intros [x Hx]. unfold select_gradient in Hx. cbn [py_get] in Hx.
    unfold mbind, result_bind in Hx. by rewrite Hv in Hx.
  - split; [|done]. intros [x Hx]. unfold select_gradient in Hx. cbn [py_get] in Hx.
    unfold mbind, result_bind in Hx. by rewrite Hv in Hx.
Qed.

(** X9.  With a palette that is not empty, the argument handling of
    create-gradient-tweet gets past a dictionary of arguments exactly when
    [gradientIndex] is absent, an integer, a boolean, or a number with a
    fraction outside [0, len(GRADIENTS)); any other value, and a fraction
    inside the range, raises. *)
Theorem select_gradient_returns_iff (E : Env) (a : dict) :
  GRADIENTS E ≠ [] →
  (∃ x, select_gradient E (PDict a) = Ok x)
  ↔ index_accepted (length (GRADIENTS E)) (a !! "gradientIndex").
Proof.
  intros Hne. split.
  - intros Hok. by apply (select_gradient_decides E a Hne).
  - intros Hacc. by apply (select_gradient_decides E a Hne).
Qed.

Lemma select_gradient_returns_iff_witness :
  GRADIENTS alice_env ≠ []
  ∧ index_accepted (length (GRADIENTS alice_env))
      (tweet_arguments (PBool true) !! "gradientIndex")
  ∧ ∃ x, select_gradient alice_env (PDict (tweet_arguments (PBool true))) = Ok x.
Proof.
  split; [discriminate|]. split; [exact I|].
  apply (select_gradient_returns_iff alice_env (tweet_arguments (PBool true))).
  - discriminate.
  - exact I.
Defined.

(** X10.  create-gradient-tweet has no error-flagged outcome.  A call
    returns a result without the error flag and with structured content, or
    it raises the exception of its argument handling before anything else
    was done. *)
Theorem create_gradient_tweet_outcomes (E : Env) (arguments : PyVal) (w : World) :
  (∃ r w', handle_create_gradient_tweet E arguments w = (Ok r, w')
     ∧ isError r = false ∧ is_Some (structuredContent r))
  ∨ (∃ e, select_gradient E arguments = Raise e
       ∧ handle_create_gradient_tweet E arguments w = (Raise e, w)).
Proof.
  destruct (select_gradient E arguments) as [[[tc gi] g]|e] eqn:Hsel.
  - left.
    destruct (handle_create_run E _ _ _ _ w Hsel)
      as (td & w' & r & _ & Hrun & Hflag & _ & sc & Hsc & _).
    exists r, w'. rewrite Hsc. eauto.
  - right. exists e. split; [done|]. by apply handle_create_raise.
Qed.

(** X11.  Leaving [gradientIndex] out is the same as sending the default
    that the tool's schema names for it: both calls end alike. *)
Theorem omitted_index_is_schema_default (E : Env) (a : dict) (v : PyVal) (w : World) :
  schema_keyword TOOL_INPUT_SCHEMA "gradientIndex" "default" = Some v →
  a !! "gradientIndex" = None →
  handle_create_gradient_tweet E (PDict (<["gradientIndex" := v]> a)) w
  = handle_create_gradient_tweet E (PDict a) w.
Proof.
  intros Hv Ha.
  assert (v = PInt 0) as -> by (vm_compute in Hv; congruence).
  assert (Hsel : select_gradient E (PDict (<["gradientIndex" := PInt 0]> a))
                 = select_gradient E (PDict a)).
  { unfold select_gradient. cbn [py_get].
    rewrite (lookup_insert_ne a "gradientIndex" "tweetContent") by done.
    rewrite lookup_insert_eq, Ha. done. }
  unfold handle_create_gradient_tweet. by rewrite Hsel.
Qed.

Lemma omitted_index_is_schema_default_witness :
  schema_keyword TOOL_INPUT_SCHEMA "gradientIndex" "default" = Some (PInt 0)
  ∧ (∅ : dict) !! "gradientIndex" = None
  ∧ handle_create_gradient_tweet alice_env (PDict (<["gradientIndex" := PInt 0]> ∅)) fresh_world
    = handle_create_gradient_tweet alice_env (PDict ∅) fresh_world.
Proof.
  split; [reflexivity|]. split; [reflexivity|].
  apply (omitted_index_is_schema_default alice_env ∅ (PInt 0) fresh_world); reflexivity.
Defined.

(** X12.  With a palette of at least 25 gradients, every index between the
    minimum and the maximum of the tool's schema is used as it is given. *)
Theorem schema_range_fits_palette (E : Env) (a : dict) (lo hi i : Z) :
  schema_keyword TOOL_INPUT_SCHEMA "gradientIndex" "minimum" = Some (PInt lo) →
  schema_keyword TOOL_INPUT_SCHEMA "gradientIndex" "maximum" = Some (PInt hi) →
  (lo ≤ i ≤ hi)%Z →
  (25 ≤ length (GRADIENTS E))%nat →
  a !! "gradientIndex" = Some (PInt i) →
  ∃ tc g, select_gradient E (PDict a) = Ok (tc, PInt i, g)
    ∧ GRADIENTS E !! Z.to_nat i = Some g.
Proof.
  intros Hlo Hhi Hi Hlen Ha.
  assert (lo = 0%Z) as -> by (vm_compute in Hlo; congruence).
  assert (hi = 24%Z) as -> by (vm_compute in Hhi; congruence).
  assert (Hne : GRADIENTS E ≠ []) by (destruct (GRADIENTS E); [simpl in Hlen; lia | done]).
  destruct (select_gradient_int E a i Hne (or_intror Ha)) as (idx & g & Hsel & Hg & _ & Hin & _).
  assert (idx = i) as -> by (apply Hin; lia).
  eauto.
Qed.

Lemma schema_range_fits_palette_witness :
  schema_keyword TOOL_INPUT_SCHEMA "gradientIndex" "minimum" = Some (PInt 0)
  ∧ schema_keyword TOOL_INPUT_SCHEMA "gradientIndex" "maximum" = Some (PInt 24)
  ∧ (25 ≤ length (GRADIENTS (with_palette full_palette alice_env)))%nat
  ∧ tweet_arguments (PInt 24) !! "gradientIndex" = Some (PInt 24)
  ∧ ∃ tc g,
      select_gradient (with_palette full_palette alice_env) (PDict (tweet_arguments (PInt 24)))
      = Ok (tc, PInt 24, g)
      ∧ GRADIENTS (with_palette full_palette alice_env) !! Z.to_nat 24 = Some g.
Proof.
  split; [reflexivity|]. split; [reflexivity|]. split; [simpl; lia|]. split; [reflexivity|].
  apply (schema_range_fits_palette (with_palette full_palette alice_env)
           (tweet_arguments (PInt 24)) 0 24 24);
    [reflexivity | reflexivity | lia | simpl; lia | reflexivity].
Defined.

(** X13.  The tweet's content is not checked: whatever value the arguments
    give for [tweetContent] comes back in the result, and without one the
    result carries the empty string. *)
Theorem tweet_content_is_echoed (E : Env) (a : dict) (w : World) :
  GRADIENTS E ≠ [] →
  index_accepted (length (GRADIENTS E)) (a !! "gradientIndex") →
  ∃ r w' sc,
    handle_create_gradient_tweet E (PDict a) w = (Ok r, w')
    ∧ structuredContent r = Some sc
    ∧ sc !! "tweetContent" =
        Some (match a !! "tweetContent" with Some v => v | None => PStr EmptyString end).
Proof.
  intros Hne Hacc.
  destruct (proj2 (select_gradient_decides E a Hne) Hacc) as [[[tc gi] g] Hsel].
  destruct (handle_create_run E _ _ _ _ w Hsel)
    as (td & w' & r & _ & Hrun & _ & _ & sc & Hsc & Htc & _).
  exists r, w', sc. split; [done|]. split; [done|]. rewrite Htc. f_equal.
  unfold select_gradient in Hsel. cbn [py_get] in Hsel.
  unfold mbind, result_bind, mret, result_ret in Hsel.
  repeat match type of Hsel with
         | match ?x with _ => _ end = _ => destruct x; try discriminate
         end.
  congruence.
Qed.

Lemma tweet_content_is_echoed_witness :
  GRADIENTS guest_env ≠ []
  ∧ index_accepted (length (GRADIENTS guest_env)) ((∅ : dict) !! "gradientIndex")
  ∧ ∃ r w' sc,
      handle_create_gradient_tweet guest_env (PDict ∅) fresh_world = (Ok r, w')
      ∧ structuredContent r = Some sc
      ∧ sc !! "tweetContent" =
          Some (match (∅ : dict) !! "tweetContent" with
                | Some v => v
                | None => PStr EmptyString
                end).
Proof.
  split; [discriminate|]. split; [exact I|].
  apply (tweet_content_is_echoed guest_env ∅ fresh_world); [discriminate | exact I].
Defined.

Lemma widget_present_iff (html : string) :
  widget_present html = true ↔ html ≠ EmptyString ∧ html ≠ widget_unavailable.
Proof.
  unfold widget_present. rewrite andb_true_iff, negb_true_iff, String.eqb_neq.
  destruct html; simpl; split; intros [H1 H2]; split; done.
Qed.

(** X14.  The widget's HTML is in a result of create-gradient-tweet, as a
    second piece of content and as [widget_html], exactly when the file could
    be read, is not empty and is not the fallback text; otherwise the result
    has the one piece of content and [widget_html] is null. *)
Theorem widget_is_shown_or_null (E : Env) (arguments : PyVal) (w : World)
    (r : CallToolResult) (w' : World) :
  handle_create_gradient_tweet E arguments w = (Ok r, w') →
  ∃ sc intro, structuredContent r = Some sc
    ∧ ((∃ html, widget_shown E html
          ∧ content r = [intro; {| text := html |}]
          ∧ sc !! "widget_html" = Some (PStr html))
       ∨ ((∀ html, ¬ widget_shown E html)
          ∧ content r = [intro]
          ∧ sc !! "widget_html" = Some PNone)).
Proof.
  intros Hrun.
  destruct (select_gradient E arguments) as [[[tc gi] g]|e] eqn:Hsel.
  2:{ by rewrite (handle_create_raise E _ _ w Hsel) in Hrun. }
  destruct (lookup_twitter_data_returns E w) as (td & w1 & Hl & _).
  unfold handle_create_gradient_tweet in Hrun.
  unfold mbind at 1, M_bind, liftR in Hrun. rewrite Hsel in Hrun.
  unfold mbind at 1, M_bind in Hrun. rewrite Hl in Hrun.
  unfold mbind at 1, M_bind, read_widget, try_except, liftR, mret, M_ret in Hrun.
  destruct (read_widget_html E) as [html|e] eqn:Hread.
  - destruct (widget_present html) eqn:Hpresent;
      apply (f_equal fst) in Hrun; cbn [fst] in Hrun; apply Ok_inj in Hrun; subst r;
      cbn [structuredContent content]; eexists _, _; (split; [reflexivity|]).
    + left. exists html. split; [|split; [reflexivity | by simplify_map_eq]].
      apply widget_present_iff in Hpresent. by split.
    + right. split; [|split; [reflexivity | by simplify_map_eq]].
      intros html' (Hr & Hne & Hnu). assert (html' = html) as -> by congruence.
      assert (widget_present html = true) by by apply widget_present_iff.
      congruence.
  - apply (f_equal fst) in Hrun; cbn [fst] in Hrun; apply Ok_inj in Hrun; subst r.
    cbn [structuredContent content]. eexists _, _. split; [reflexivity|].
    right. split; [|split; [reflexivity | by simplify_map_eq]].
    intros html' (Hr & _). congruence.
Qed.

Lemma widget_is_shown_or_null_witness :
  ∃ r w',
    handle_create_gradient_tweet alice_env (PDict (tweet_arguments (PInt 1))) fresh_world
    = (Ok r, w')
    ∧ ∃ sc intro, structuredContent r = Some sc
        ∧ ((∃ html, widget_shown alice_env html
              ∧ content r = [intro; {| text := html |}]
              ∧ sc !! "widget_html" = Some (PStr html))
           ∨ ((∀ html, ¬ widget_shown alice_env html)
              ∧ content r = [intro]
              ∧ sc !! "widget_html" = Some PNone)).
Proof.
  eexists _, _. split; [reflexivity|].
  eapply (widget_is_shown_or_null alice_env (PDict (tweet_arguments (PInt 1))) fresh_world).
  reflexivity.
Defined.

(** X15.  Without a principal that has a subject, create-gradient-tweet does
    not touch the database, however the call ends. *)
Theorem guests_leave_database_alone (E : Env) (arguments : PyVal) (w : World) :
  (∀ tok, get_access_token E = Ok (Some tok) → subject tok = EmptyString) →
  snd (handle_create_gradient_tweet E arguments w) = w.
Proof.
  intros Hguest.
  destruct (select_gradient E arguments) as [[[tc gi] g]|e] eqn:Hsel.
  2:{ by rewrite (handle_create_raise E _ _ w Hsel). }
  destruct (handle_create_run E _ _ _ _ w Hsel) as (td & w' & r & Hl & -> & _).
  cbn [snd]. apply (f_equal snd) in Hl. cbn [snd] in Hl. rewrite <- Hl.
  unfold lookup_twitter_data. run_M.
  destruct (get_access_token E) as [[tok|]|e]; try reflexivity.
  by rewrite (Hguest tok eq_refl).
Qed.

Lemma guests_leave_database_alone_witness :
  (∀ tok, get_access_token guest_env = Ok (Some tok) → subject tok = EmptyString)
  ∧ snd (handle_create_gradient_tweet guest_env (PDict (tweet_arguments (PInt 1))) fresh_world)
    = fresh_world.
Proof.
  split; [intros tok Htok; discriminate|].
  apply (guests_leave_database_alone guest_env (PDict (tweet_arguments (PInt 1))) fresh_world).
  intros tok Htok. discriminate.
Defined.

(** X16.  For a principal with a subject, a call of create-gradient-tweet
    that got past its arguments and got a connection uses that one fresh
    connection and closes it, whether the query or the closing raise or
    not. *)
Theorem authenticated_call_uses_one_connection (E : Env) (arguments : PyVal)
    (x : PyVal * PyVal * Gradient) (tok : StytchAccessToken) (w : World) :
  select_gradient E arguments = Ok x →
  get_access_token E = Ok (Some tok) →
  subject tok ≠ EmptyString →
  db_connect E = Ok () →
  snd (handle_create_gradient_tweet E arguments w)
  = {| next_conn := S (next_conn w);
       db_log := db_log w ++ [Acquire (next_conn w); Release (next_conn w)] |}.
Proof.
  intros Hsel Htok Hsub Hconn. destruct x as [[tc gi] g].
  destruct (handle_create_run E _ _ _ _ w Hsel) as (td & w' & r & Hl & -> & _).
  cbn [snd]. apply (f_equal snd) in Hl. cbn [snd] in Hl. rewrite <- Hl.
  unfold lookup_twitter_data. run_M. rewrite Htok.
  destruct (subject tok) as [|c s] eqn:Hs; [done|]. cbn [truthy].
  rewrite Hconn.
  destruct (db_get_profile_by_user_id E (String c s)) as [[p|]|e];
    destruct (db_close_outcome E) as [[]|e']; cbn; by rewrite <- app_assoc.
Qed.

Lemma authenticated_call_uses_one_connection_witness :
  select_gradient alice_env (PDict (tweet_arguments (PInt 2)))
  = Ok (PStr "hello", PInt 2, {| gradient_name := "Aurora" |})
  ∧ get_access_token alice_env = Ok (Some alice_token)
  ∧ subject alice_token ≠ EmptyString
  ∧ db_connect alice_env = Ok ()
  ∧ snd (handle_create_gradient_tweet alice_env (PDict (tweet_arguments (PInt 2))) fresh_world)
    = {| next_conn := S (next_conn fresh_world);
         db_log := db_log fresh_world
                   ++ [Acquire (next_conn fresh_world); Release (next_conn fresh_world)] |}.
Proof.
  split; [reflexivity|]. split; [reflexivity|]. split; [discriminate|].
  split; [reflexivity|].
  apply (authenticated_call_uses_one_connection alice_env (PDict (tweet_arguments (PInt 2)))
           (PStr "hello", PInt 2, {| gradient_name := "Aurora" |}) alice_token fresh_world);
    [reflexivity | reflexivity | discriminate | reflexivity].
Defined.

(** ** Saving a profile, continued *)

Lemma failure_shape (message : string) (status : Z) :
  body (failure message status) !! "success" = Some (PBool false)
  ∧ body (failure message status) !! "message" = Some (PStr message)
  ∧ body (failure message status) !! "profile" = None.
Proof. unfold failure. cbn [body]. repeat split; by simplify_map_eq. Qed.

(** X17.  save-profile answers every request: it never raises.  The status
    is 200, 400 or 500; [success] is true exactly when the status is 200;
    there is always a message; and there is a [profile] exactly when the
    status is 200. *)
Theorem save_profile_always_answers (E : Env) (request_body : string) (w : World) :
  ∃ r w', save_profile E request_body w = (Ok r, w')
    ∧ (status_code r = 200 ∨ status_code r = 400 ∨ status_code r = 500)%Z
    ∧ body r !! "success" = Some (PBool (status_code r =? 200)%Z)
    ∧ (∃ m, body r !! "message" = Some (PStr m))
    ∧ (is_Some (body r !! "profile") ↔ status_code r = 200%Z).
Proof.
  assert (Hfail : ∀ (m : string) (s : Z) (w' : World), (s = 400 ∨ s = 500)%Z →
    ∃ (r : JSONResponse) (w'' : World), (Ok (failure m s), w') = (Ok r, w'')
      ∧ (status_code r = 200 ∨ status_code r = 400 ∨ status_code r = 500)%Z
      ∧ body r !! "success" = Some (PBool (status_code r =? 200)%Z)
      ∧ (∃ m, body r !! "message" = Some (PStr m))
      ∧ (is_Some (body r !! "profile") ↔ status_code r = 200%Z)).
  { intros m s w' Hs. exists (failure m s), w'.
    destruct (failure_shape m s) as (Hsucc & Hmsg & Hprof).
    split; [done|]. split; [cbn; tauto|]. rewrite Hsucc, Hmsg, Hprof. cbn [status_code failure].
    split; [by destruct Hs as [-> | ->]|]. split; [eauto|].
    split; [by intros [? ?] | intros ->; lia]. }
  unfold save_profile. run_M.
  destruct (json_loads E request_body) as [data|e]; [|apply Hfail; tauto].
  destruct (py_get data "session_token" PNone) as [st|e]; [|apply Hfail; tauto].
  destruct (negb (truthy st)); [apply Hfail; tauto|].
  destruct (verify_stytch_session_token E st) as [ud|e]; [|apply Hfail; tauto].
  destruct (extract_twitter_profile E ud) as [tp|e]; [|apply Hfail; tauto].
  destruct (negb (truthy tp)); [apply Hfail; tauto|].
  destruct (db_connect E) as [[]|e]; [|apply Hfail; tauto].
  destruct (db_get_or_create_profile E tp) as [[p|]|e];
    destruct (db_close_outcome E) as [[]|e']; try (apply Hfail; tauto).
  eexists _, _. split; [reflexivity|]. cbn [status_code body].
  split; [tauto|]. split; [by simplify_map_eq|].
  split; [eexists; by simplify_map_eq|].
  split; [done|]. intros _. eexists. by simplify_map_eq.
Qed.

(** X18.  save-profile touches the database only for a request that got as
    far as the store: its body is a JSON object with a session token, the
    exchange of the token and the extraction both returned, there is a
    linked profile, and a connection could be had. *)
Theorem save_profile_store_reached (E : Env) (request_body : string) (w : World) :
  snd (save_profile E request_body w) ≠ w →
  ∃ d st ud tp,
    json_loads E request_body = Ok (PDict d)
    ∧ d !! "session_token" = Some st ∧ truthy st = true
    ∧ verify_stytch_session_token E st = Ok ud
    ∧ extract_twitter_profile E ud = Ok tp ∧ truthy tp = true
    ∧ db_connect E = Ok ().
Proof.
  unfold save_profile. run_M.
  destruct (json_loads E request_body) as [data|e] eqn:Hjson; [|done].
  destruct data as [| | | | | |d]; try done. cbn [py_get].
  destruct (d !! "session_token") as [st|] eqn:Hst; [|done].
  destruct (truthy st) eqn:Htruthy; [|done]. cbn [negb].
  destruct (verify_stytch_session_token E st) as [ud|e] eqn:Hverify; [|done].
  destruct (extract_twitter_profile E ud) as [tp|e] eqn:Hextract; [|done].
  destruct (truthy tp) eqn:Htp; [|done]. cbn [negb].
  destruct (db_connect E) as [[]|e] eqn:Hconn; [|done].
  intros _. exists d, st, ud, tp. by repeat split.
Qed.

Lemma save_profile_store_reached_witness :
  snd (save_profile alice_env session_body fresh_world) ≠ fresh_world
  ∧ ∃ d st ud tp,
      json_loads alice_env session_body = Ok (PDict d)
      ∧ d !! "session_token" = Some st ∧ truthy st = true
      ∧ verify_stytch_session_token alice_env st = Ok ud
      ∧ extract_twitter_profile alice_env ud = Ok tp ∧ truthy tp = true
      ∧ db_connect alice_env = Ok ().
Proof.
  assert (Hw : snd (save_profile alice_env session_body fresh_world)
               = {| next_conn := 1; db_log := [Acquire 0; Release 0] |})
    by (vm_compute; reflexivity).
  split; [rewrite Hw; discriminate|].
  apply (save_profile_store_reached alice_env session_body fresh_world).
  rewrite Hw. discriminate.
Defined.



(** ** Configuration and start-up *)

Example lower_mixed_case : py_lower "TrUe" = "true".
Proof. reflexivity. Qed.

(** Without a certificate path or a key path the server runs over HTTP. *)
Lemma main_http_without_paths (environ : gmap string string)
    (int_of_str : string → option Z) (path_exists : string → bool) (port : Z) :
  int_of_str (Config.getenv environ "SERVER_PORT" "8000") = Some port →
  Config.getenv environ "SSL_CERT_PATH" EmptyString = EmptyString
  ∨ Config.getenv environ "SSL_KEY_PATH" EmptyString = EmptyString →
  Config.main environ int_of_str path_exists = Some (Config.Http port).
Proof.
  intros Hport Hpaths. unfold Config.main. rewrite Hport. cbn [mbind option_bind].
  destruct Hpaths as [-> | ->]; cbn [truthy];
    by rewrite ?andb_false_r.
Qed.

(** X20.  At start-up the server runs over HTTPS exactly when both the
    certificate path and the key path are set and either USE_HTTPS says
    true or both files exist; in every other case it runs over plain HTTP.
    USE_HTTPS alone never turns HTTPS on. *)
Theorem main_serves_https_iff (environ : gmap string string)
    (int_of_str : string → option Z) (path_exists : string → bool) (port : Z) :
  int_of_str (Config.getenv environ "SERVER_PORT" "8000") = Some port →
  let cert := Config.getenv environ "SSL_CERT_PATH" EmptyString in
  let key := Config.getenv environ "SSL_KEY_PATH" EmptyString in
  let wanted :=
    cert ≠ EmptyString ∧ key ≠ EmptyString
    ∧ (py_lower (Config.getenv environ "USE_HTTPS" "false") = "true"
       ∨ (path_exists cert = true ∧ path_exists key = true)) in
  (wanted → Config.main environ int_of_str path_exists = Some (Config.Https port key cert))
  ∧ (¬ wanted → Config.main environ int_of_str path_exists = Some (Config.Http port)).
Proof.
  intros Hport cert key wanted. unfold Config.main. rewrite Hport. cbn [mbind option_bind].
  fold cert key. subst wanted.
  destruct (String.eqb_spec (py_lower (Config.getenv environ "USE_HTTPS" "false")) "true")
    as [Hu|Hu];
    destruct cert as [|c1 s1], key as [|c2 s2]; cbn [truthy andb orb];
    try (split; [intros (? & ? & ?); done | done]).
  - split; [done|]. intros Hn. destruct Hn. repeat split; try done. by left.
  - destruct (path_exists (String c1 s1)), (path_exists (String c2 s2)); cbn [andb];
      (split; [try done; intros (_ & _ & [?|[? ?]]); done |]);
      try done;
      intros Hn; destruct Hn; repeat split; try done; by right.
Qed.

Lemma main_serves_https_iff_witness :
  example_int (Config.getenv certificate_only "SERVER_PORT" "8000") = Some 8000%Z
  ∧ Config.main certificate_only example_int (λ _, true)
    = Some (Config.Https 8000 "/etc/ssl/key.pem" "/etc/ssl/cert.pem").
Proof.
  split; [reflexivity|].
  apply (proj1 (main_serves_https_iff certificate_only example_int (λ _, true) 8000 eq_refl)).
  split; [discriminate|]. split; [discriminate|]. right. split; reflexivity.
Defined.

(** X21.  When USE_HTTPS says true and the certificate path or the key path
    is not set, the address the server gives for itself starts with
    https:// (unless MCP_SERVER_URL sets another), while the server runs over
    plain HTTP. *)
Theorem https_address_over_http (environ : gmap string string)
    (int_of_str : string → option Z) (path_exists : string → bool) (port : Z) :
  int_of_str (Config.getenv environ "SERVER_PORT" "8000") = Some port →
  py_lower (Config.getenv environ "USE_HTTPS" "false") = "true" →
  Config.getenv environ "SSL_CERT_PATH" EmptyString = EmptyString
  ∨ Config.getenv environ "SSL_KEY_PATH" EmptyString = EmptyString →
  environ !! "MCP_SERVER_URL" = None →
  Config.main environ int_of_str path_exists = Some (Config.Http port)
  ∧ ∃ rest, Config.MCP_SERVER_URL environ = "https://" +:+ rest.
Proof.
  intros Hport Hu Hpaths Hurl. split.
  - by apply main_http_without_paths.
  - unfold Config.MCP_SERVER_URL, Config.DEFAULT_PROTOCOL.
    unfold Config.getenv at 1. rewrite Hurl, Hu. cbn [String.eqb Ascii.eqb Bool.eqb].
    eexists. reflexivity.
Qed.

Lemma https_address_over_http_witness :
  example_int (Config.getenv https_without_certificate "SERVER_PORT" "8000") = Some 8443%Z
  ∧ py_lower (Config.getenv https_without_certificate "USE_HTTPS" "false") = "true"
  ∧ Config.getenv https_without_certificate "SSL_CERT_PATH" EmptyString = EmptyString
  ∧ https_without_certificate !! "MCP_SERVER_URL" = None
  ∧ Config.main https_without_certificate example_int (λ _, true) = Some (Config.Http 8443)
  ∧ ∃ rest, Config.MCP_SERVER_URL https_without_certificate = "https://" +:+ rest.
Proof.
  split; [reflexivity|]. split; [reflexivity|]. split; [reflexivity|]. split; [reflexivity|].
  apply (https_address_over_http https_without_certificate example_int (λ _, true) 8443);
    [reflexivity | reflexivity | left; reflexivity | reflexivity].
Defined.
